(** * Verification of the AI API response cache and retrying client

    A shallow embedding of [src/ai_api.py]: the SQLite-backed [APICache]
    (cache key derivation, [get], [set], [cleanup_expired]) and
    [AIAPIClient.call_ai_api] with the urllib3 [Retry] policy that
    [_init_session] mounts on its HTTP session. *)

From Stdlib Require Import ZArith List String Ascii Bool Lia.
From Stdlib Require Import Permutation Sorting.Sorted.
Import ListNotations.
Open Scope Z_scope.

(* ------------------------------------------------------------------ *)
(** ** [hashlib.md5(...).hexdigest()] *)

Module MD5.

Definition mask32 : Z := 4294967295.

Definition add32 (x y : Z) : Z := (x + y) mod 4294967296.

Definition not32 (x : Z) : Z := Z.lxor x mask32.

Definition rotl32 (x : Z) (c : Z) : Z :=
  Z.land (Z.lor (Z.shiftl x c) (Z.shiftr x (32 - c))) mask32.

Definition K : list Z :=
  [3614090360; 3905402710; 606105819; 3250441966; 4118548399; 1200080426;
   2821735955; 4249261313; 1770035416; 2336552879; 4294925233; 2304563134;
   1804603682; 4254626195; 2792965006; 1236535329; 4129170786; 3225465664;
   643717713; 3921069994; 3593408605; 38016083; 3634488961; 3889429448;
   568446438; 3275163606; 4107603335; 1163531501; 2850285829; 4243563512;
   1735328473; 2368359562; 4294588738; 2272392833; 1839030562; 4259657740;
   2763975236; 1272893353; 4139469664; 3200236656; 681279174; 3936430074;
   3572445317; 76029189; 3654602809; 3873151461; 530742520; 3299628645;
   4096336452; 1126891415; 2878612391; 4237533241; 1700485571; 2399980690;
   4293915773; 2240044497; 1873313359; 4264355552; 2734768916; 1309151649;
   4149444226; 3174756917; 718787259; 3951481745].

Definition S : list Z :=
  [7; 12; 17; 22; 7; 12; 17; 22; 7; 12; 17; 22; 7; 12; 17; 22;
   5; 9; 14; 20; 5; 9; 14; 20; 5; 9; 14; 20; 5; 9; 14; 20;
   4; 11; 16; 23; 4; 11; 16; 23; 4; 11; 16; 23; 4; 11; 16; 23;
   6; 10; 15; 21; 6; 10; 15; 21; 6; 10; 15; 21; 6; 10; 15; 21].

(** Little-endian bytes of a [n]-byte unsigned value. *)
Fixpoint le_bytes (n : nat) (x : Z) : list Z :=
  match n with
  | O => []
  | Datatypes.S n' => Z.land x 255 :: le_bytes n' (Z.shiftr x 8)
  end.

(** Message padding: [0x80], zeros up to 56 mod 64, 64-bit bit length. *)
Definition pad (msg : list Z) : list Z :=
  let len := Z.of_nat (List.length msg) in
  let zeros := Z.to_nat ((55 - len) mod 64) in
  msg ++ [128] ++ repeat 0 zeros ++ le_bytes 8 (len * 8).

Fixpoint words (bs : list Z) : list Z :=
  match bs with
  | b0 :: b1 :: b2 :: b3 :: rest =>
      (b0 + Z.shiftl b1 8 + Z.shiftl b2 16 + Z.shiftl b3 24) :: words rest
  | _ => []
  end.

Record abcd := { ra : Z; rb : Z; rc : Z; rd : Z }.

Definition round (M : list Z) (st : abcd) (i : nat) : abcd :=
  let '{| ra := A; rb := B; rc := C; rd := D |} := st in
  let '(F, g) :=
    if (i <? 16)%nat then (Z.lor (Z.land B C) (Z.land (not32 B) D), i)
    else if (i <? 32)%nat then (Z.lor (Z.land D B) (Z.land (not32 D) C), Nat.modulo (5 * i + 1) 16)
    else if (i <? 48)%nat then (Z.lxor B (Z.lxor C D), Nat.modulo (3 * i + 5) 16)
    else (Z.lxor C (Z.lor B (not32 D)), Nat.modulo (7 * i) 16) in
  let F' := add32 (add32 (add32 F A) (nth i K 0)) (nth g M 0) in
  {| ra := D; rb := add32 B (rotl32 F' (nth i S 0)); rc := B; rd := C |}.

Definition chunk (st : abcd) (M : list Z) : abcd :=
  let st' := fold_left (round M) (seq 0 64) st in
  {| ra := add32 (ra st) (ra st'); rb := add32 (rb st) (rb st');
     rc := add32 (rc st) (rc st'); rd := add32 (rd st) (rd st') |}.

Fixpoint chunks (fuel : nat) (ws : list Z) : list (list Z) :=
  match fuel with
  | O => []
  | Datatypes.S f =>
      match ws with
      | [] => []
      | _ => firstn 16 ws :: chunks f (skipn 16 ws)
      end
  end.

Definition init : abcd :=
  {| ra := 1732584193; rb := 4023233417; rc := 2562383102; rd := 271733878 |}.

Definition hex_digit (n : Z) : ascii :=
  if n <? 10 then ascii_of_nat (48 + Z.to_nat n) else ascii_of_nat (87 + Z.to_nat n).

Fixpoint hex_of_bytes (bs : list Z) : string :=
  match bs with
  | [] => EmptyString
  | b :: t => String (hex_digit (Z.shiftr b 4)) (String (hex_digit (Z.land b 15)) (hex_of_bytes t))
  end.

Definition bytes_of_string (s : string) : list Z :=
  map (fun c => Z.of_nat (nat_of_ascii c)) (list_ascii_of_string s).

(** [hashlib.md5(s.encode()).hexdigest()] for a string [s] of ASCII
    characters, whose UTF-8 encoding is the string's bytes. *)
Definition md5_hexdigest (s : string) : string :=
  let ws := words (pad (bytes_of_string s)) in
  let st := fold_left chunk (chunks (List.length ws) ws) init in
  hex_of_bytes (le_bytes 4 (ra st) ++ le_bytes 4 (rb st) ++ le_bytes 4 (rc st) ++ le_bytes 4 (rd st)).

End MD5.

(* ------------------------------------------------------------------ *)
(** ** [json.dumps(obj, sort_keys=True)] *)

Module Json.

#[local] Set Warnings "-register-all".
Local Open Scope string_scope.

(** JSON values as [json.dumps] receives them.  A Python float is held by
    its [repr], which [json.dumps] emits verbatim; a dict is the list of
    its items in insertion order (keys pairwise distinct). *)
Inductive json :=
| JStr (s : string)
| JInt (z : Z)
| JFloat (repr : string)
| JArr (l : list json)
| JObj (items : list (string * json)).

(** The double-quote character. *)
Definition dq : ascii := ascii_of_nat 34.

Definition bs : ascii := ascii_of_nat 92.

Definition hex4 (n : nat) : string :=
  String bs (String "u" (String "0" (String "0"
    (String (MD5.hex_digit (Z.of_nat n / 16)) (String (MD5.hex_digit (Z.of_nat n mod 16)) EmptyString))))).

(** [py_encode_basestring_ascii] on one character (default
    [ensure_ascii=True]); characters are the code points 0..255. *)
Definition escape_char (c : ascii) : string :=
  let n := nat_of_ascii c in
  if (n =? 34)%nat then String bs (String dq EmptyString)
  else if (n =? 92)%nat then String bs (String bs EmptyString)
  else if (n =? 10)%nat then "\n"
  else if (n =? 13)%nat then "\r"
  else if (n =? 9)%nat then "\t"
  else if (n =? 8)%nat then "\b"
  else if (n =? 12)%nat then "\f"
  else if ((n <? 32) || (126 <? n))%nat then hex4 n
  else String c EmptyString.

Fixpoint escape (s : string) : string :=
  match s with
  | EmptyString => EmptyString
  | String c t => escape_char c ++ escape t
  end.

Definition encode_str (s : string) : string := String dq (escape s ++ String dq EmptyString).

Fixpoint digits (fuel : nat) (n : Z) (acc : string) : string :=
  match fuel with
  | O => acc
  | Datatypes.S f =>
      let acc' := String (ascii_of_nat (48 + Z.to_nat (n mod 10))) acc in
      if Z.ltb n 10 then acc' else digits f (n / 10) acc'
  end.

(** [int.__repr__]. *)
Definition repr_int (z : Z) : string :=
  if Z.ltb z 0 then "-" ++ digits (Z.to_nat (Z.log2 (- z)) + 1) (- z) EmptyString
  else digits (Z.to_nat (Z.log2 z) + 1) z EmptyString.

(** [sorted(dct.items())]: insertion by key; with pairwise distinct keys the
    tuple comparison of Python never reaches the values. *)
Fixpoint insert_item (x : string * string) (l : list (string * string)) :=
  match l with
  | [] => [x]
  | y :: t => if String.leb (fst x) (fst y) then x :: y :: t else y :: insert_item x t
  end.

Fixpoint sort_items (l : list (string * string)) : list (string * string) :=
  match l with
  | [] => []
  | x :: t => insert_item x (sort_items t)
  end.

Definition encode_items (l : list (string * string)) : string :=
  "{" ++ String.concat ", " (map (fun '(k, v) => encode_str k ++ ": " ++ v) (sort_items l)) ++ "}".

(** The encoder with separators [", "] and [": "] and [sort_keys=True]:
    every dict, at every depth, is emitted with its keys sorted. *)
Fixpoint dumps (j : json) : string :=
  match j with
  | JStr s => encode_str s
  | JInt z => repr_int z
  | JFloat r => r
  | JArr l => "[" ++ String.concat ", " (map dumps l) ++ "]"
  | JObj items => encode_items (map (fun '(k, v) => (k, dumps v)) items)
  end.

End Json.

(* ------------------------------------------------------------------ *)
(** ** [APICache._generate_cache_key] *)

Import Json.
Local Open Scope string_scope.

(** A conversation turn, [Dict[str, str]], as its items in insertion order. *)
Definition message := list (string * string).

Definition message_json (m : message) : json :=
  JObj (map (fun '(k, v) => (k, JStr v)) m).

Definition cache_data (messages : list message) (model temperature : string) (max_tokens : Z) : json :=
  JObj [("messages", JArr (map message_json messages));
        ("model", JStr model);
        ("temperature", JFloat temperature);
        ("max_tokens", JInt max_tokens)].

Definition cache_string (messages : list message) (model temperature : string) (max_tokens : Z) : string :=
  dumps (cache_data messages model temperature max_tokens).

Definition _generate_cache_key (messages : list message) (model temperature : string) (max_tokens : Z) : string :=
  MD5.md5_hexdigest (cache_string messages model temperature max_tokens).

(** Test helper: write the expected JSON text with [']
    standing for the double quote. *)
Fixpoint sq_to_dq (s : string) : string :=
  match s with
  | EmptyString => EmptyString
  | String c t => String (if Ascii.eqb c "'"%char then dq else c) (sq_to_dq t)
  end.

(* ------------------------------------------------------------------ *)
(** ** Time stamps as SQLite compares them *)

Local Open Scope Z_scope.

(** Instants are microseconds since the epoch.  A stored time stamp is
    text; its fixed-width date-time part "YYYY-MM-DD HH:MM:SS" orders
    like the second count it encodes, so it is held as that count, and
    the optional fraction ".ffffff" as its six-digit value. *)
Record ts_text := { ts_sec : Z; ts_frac : option Z }.

(** sqlite3's default adapter for [datetime]: [isoformat(" ")], which
    writes the fraction only when the microsecond is non-zero. *)
Definition adapt_datetime (naive_us : Z) : ts_text :=
  {| ts_sec := naive_us / 1000000;
     ts_frac := let f := naive_us mod 1000000 in if f =? 0 then None else Some f |}.

(** SQLite's [CURRENT_TIMESTAMP]: UTC, "YYYY-MM-DD HH:MM:SS", whole seconds. *)
Definition CURRENT_TIMESTAMP (utc_us : Z) : ts_text :=
  {| ts_sec := utc_us / 1000000; ts_frac := None |}.

Definition frac_gt (a b : option Z) : bool :=
  match a, b with
  | Some x, Some y => y <? x
  | Some _, None => true
  | None, _ => false
  end.

(** Text comparison [a > b]: equal date-time parts are followed by the
    fractions, and a string that strictly extends another is greater. *)
Definition text_gt (a b : ts_text) : bool :=
  (ts_sec b <? ts_sec a) || ((ts_sec a =? ts_sec b) && frac_gt (ts_frac a) (ts_frac b)).

Definition text_le (a b : ts_text) : bool := negb (text_gt a b).

(* ------------------------------------------------------------------ *)
(** ** Configuration, world and effects *)

(** The [config] properties read by [ai_api.py].  A float setting is held
    by its [repr]; [utc_offset_us] is the host's local time zone, which
    [datetime.now()] follows. *)
Record config := {
  API_PROVIDER : string;
  CURRENT_MODEL : string;
  DEFAULT_TEMPERATURE : string;
  DEFAULT_MAX_TOKENS : Z;
  ENABLE_RESPONSE_CACHING : bool;
  CACHE_DURATION_MINUTES : Z;
  utc_offset_us : Z
}.

(** A row of table [api_cache]. *)
Record row := { response : string; created_at : ts_text; expires_at : ts_text }.

(** Observable effects, newest first in [trace]. *)
Inductive event :=
| EvDb                 (* an sqlite3 connection and statement on api_cache.db *)
| EvPost               (* a call of [self.session.post] *)
| EvHttp (n : nat)     (* the n-th HTTP request sent upstream *)
| EvSleep (us : Z).    (* [time.sleep] *)

Record world := {
  table : list (string * row);  (* api_cache, keyed by cache_key *)
  db_read_fails : bool;         (* sqlite3 raises on a SELECT *)
  db_write_fails : bool;        (* sqlite3 raises on an INSERT or DELETE *)
  clock_us : Z;                 (* the UTC wall clock *)
  http_count : nat;
  trace : list event
}.

(** Exceptions that can leave the modelled code. *)
Inductive exn :=
| OperationalError                 (* sqlite3 *)
| KeyError                         (* response.json()["choices"][0]... *)
| Exception (msg : string)         (* raise Exception(...) *)
| RetryError (msg : string)        (* requests.exceptions.RetryError *)
| ConnectionError (msg : string)   (* requests.ConnectionError *)
| ReadTimeout (msg : string).      (* requests.ReadTimeout *)

Inductive result (A : Type) := Ok (a : A) | Raise (e : exn).
Arguments Ok {A} a.
Arguments Raise {A} e.

Definition M (A : Type) := world -> result A * world.

Definition ret {A} (a : A) : M A := fun w => (Ok a, w).

Definition bind {A B} (m : M A) (k : A -> M B) : M B :=
  fun w => match m w with
           | (Ok a, w') => k a w'
           | (Raise e, w') => (Raise e, w')
           end.

Notation "x <- m ;; k" := (bind m (fun x => k)) (at level 61, m at next level, right associativity).

Definition raise {A} (e : exn) : M A := fun w => (Raise e, w).

Definition read_world : M world := fun w => (Ok w, w).

Definition modify (f : world -> world) : M unit := fun w => (Ok tt, f w).

Definition emit (e : event) : M unit :=
  modify (fun w => {| table := table w; db_read_fails := db_read_fails w; db_write_fails := db_write_fails w; clock_us := clock_us w;
                      http_count := http_count w; trace := e :: trace w |}).

Definition set_table (t : list (string * row)) : M unit :=
  modify (fun w => {| table := t; db_read_fails := db_read_fails w; db_write_fails := db_write_fails w; clock_us := clock_us w;
                      http_count := http_count w; trace := trace w |}).

(** [time.sleep]: recorded, and the clock moves on. *)
Definition sleep (us : Z) : M unit :=
  _ <- emit (EvSleep us) ;;
  modify (fun w => {| table := table w; db_read_fails := db_read_fails w; db_write_fails := db_write_fails w; clock_us := clock_us w + us;
                      http_count := http_count w; trace := trace w |}).

(** [sqlite3.connect] and the statement that follows: a read (SELECT) or
    a write (INSERT, DELETE and commit). *)
Definition db_access (write : bool) : M unit :=
  _ <- emit EvDb ;;
  w <- read_world ;;
  if (if write then db_write_fails w else db_read_fails w) then raise OperationalError else ret tt.

(** [try: ... except (requests.ReadTimeout, requests.ConnectionError) as e:] *)
Definition try_transport {A} (m : M A) (handler : string -> M A) : M A :=
  fun w => match m w with
           | (Raise (ConnectionError msg), w') => handler msg w'
           | (Raise (ReadTimeout msg), w') => handler msg w'
           | r => r
           end.

(* ------------------------------------------------------------------ *)
(** ** [APICache] *)

Section APICache.

Variable cfg : config.

(** [datetime.now()]: naive local time. *)
Definition datetime_now : M Z :=
  w <- read_world ;; ret (clock_us w + utc_offset_us cfg).

Definition select_response (key : string) (now : ts_text) (t : list (string * row)) : option string :=
  match find (fun kr => String.eqb (fst kr) key && text_gt (expires_at (snd kr)) now) t with
  | Some (_, r) => Some (response r)
  | None => None
  end.

(** [INSERT OR REPLACE]: the row with the same primary key goes. *)
Definition insert_or_replace (key : string) (r : row) (t : list (string * row)) : list (string * row) :=
  (key, r) :: filter (fun kr => negb (String.eqb (fst kr) key)) t.

Definition get (messages : list message) (model temperature : string) (max_tokens : Z) : M (option string) :=
  if negb (ENABLE_RESPONSE_CACHING cfg) then ret None else
  let cache_key := _generate_cache_key messages model temperature max_tokens in
  _ <- db_access false ;;
  w <- read_world ;;
  ret (select_response cache_key (CURRENT_TIMESTAMP (clock_us w)) (table w)).

Definition set (messages : list message) (model temperature : string) (max_tokens : Z)
    (response_ : string) : M unit :=
  if negb (ENABLE_RESPONSE_CACHING cfg) then ret tt else
  let cache_key := _generate_cache_key messages model temperature max_tokens in
  now <- datetime_now ;;
  let expires := adapt_datetime (now + CACHE_DURATION_MINUTES cfg * 60 * 1000000) in
  _ <- db_access true ;;
  w <- read_world ;;
  set_table (insert_or_replace cache_key
               {| response := response_; created_at := CURRENT_TIMESTAMP (clock_us w);
                  expires_at := expires |} (table w)).

(** [DELETE FROM api_cache WHERE expires_at <= CURRENT_TIMESTAMP] *)
Definition sweep (now : ts_text) (t : list (string * row)) : list (string * row) :=
  filter (fun kr => negb (text_le (expires_at (snd kr)) now)) t.

Definition cleanup_expired : M unit :=
  _ <- db_access true ;;
  w <- read_world ;;
  set_table (sweep (CURRENT_TIMESTAMP (clock_us w)) (table w)).

End APICache.

(* ------------------------------------------------------------------ *)
(** ** The HTTP session of [_init_session] *)

(** What the upstream does with one HTTP request: answer with a status,
    a body, whether a [Retry-After] header is present and the value at
    [choices[0].message.content] of the body ([None] when absent), or
    fail in transport (connection error, read timeout). *)
Inductive outcome :=
| Resp (status : Z) (text : string) (retry_after : bool) (content : option string)
| ConnFail (reason : string)
| ReadTimeoutFail (reason : string).

(** The response object [session.post] hands back. *)
Record response_obj := { status_code : Z; resp_text : string; resp_content : option string }.

Definition status_forcelist : list Z := [429; 500; 502; 503; 504].

(** [Retry.RETRY_AFTER_STATUS_CODES] of urllib3. *)
Definition RETRY_AFTER_STATUS_CODES : list Z := [413; 429; 503].

Definition mem (z : Z) (l : list Z) : bool := existsb (Z.eqb z) l.

(** [Retry.is_retry] for a POST, which [allowed_methods] admits; [total]
    is the retry budget left. *)
Definition is_retry (status : Z) (has_retry_after : bool) (total : nat) : bool :=
  mem status status_forcelist
  || (negb (Nat.eqb total 0) && has_retry_after && mem status RETRY_AFTER_STATUS_CODES).

Definition max_retries_msg (reason : string) : string :=
  "Max retries exceeded (Caused by " ++ reason ++ ")".

Definition too_many_msg (status : Z) : string :=
  "ResponseError('too many " ++ repr_int status ++ " error responses')".

Section Client.

Variable cfg : config.
Variable upstream : nat -> outcome.

(** Send one HTTP request upstream. *)
Definition http_request : M outcome :=
  w <- read_world ;;
  let n := http_count w in
  _ <- modify (fun w => {| table := table w; db_read_fails := db_read_fails w; db_write_fails := db_write_fails w; clock_us := clock_us w;
                           http_count := S n; trace := EvHttp n :: trace w |}) ;;
  ret (upstream n).

(** urllib3's [urlopen] under [Retry(total=3, read=3, connect=3,
    status_forcelist=[429, 500, 502, 503, 504], allowed_methods=["POST"])]
    as the [HTTPAdapter] of requests surfaces it: exhausting the budget on
    a status raises [RetryError], on a transport failure
    [ConnectionError].  The [read] and [connect] budgets equal [total]
    and fall with it, so [total] alone decides.  Back-off sleeps inside
    the session are not recorded. *)
Fixpoint urlopen (total : nat) : M response_obj :=
  o <- http_request ;;
  match o with
  | Resp st txt ra c =>
      if is_retry st ra total then
        match total with
        | O => raise (RetryError (max_retries_msg (too_many_msg st)))
        | S t => urlopen t
        end
      else ret {| status_code := st; resp_text := txt; resp_content := c |}
  | ConnFail r | ReadTimeoutFail r =>
      match total with
      | O => raise (ConnectionError (max_retries_msg r))
      | S t => urlopen t
      end
  end.

(** [self.session.post(config.CURRENT_API_URL, json=payload, ...)] *)
Definition session_post : M response_obj :=
  _ <- emit EvPost ;; urlopen 3.

Definition _optimize_parameters_for_speed (temperature : option string) (max_tokens : option Z)
    : string * Z :=
  let optimized_temp := match temperature with Some t => t | None => DEFAULT_TEMPERATURE cfg end in
  let optimized_tokens := match max_tokens with Some k => k | None => Z.min (DEFAULT_MAX_TOKENS cfg) 600 end in
  let optimized_tokens :=
    if String.eqb (API_PROVIDER cfg) "openai" then Z.min optimized_tokens 500 else optimized_tokens in
  (optimized_temp, optimized_tokens).

Inductive attempt_result := Returned (s : string) | Failed (last_error : string).

(** The body of the [try] in one round of the loop. *)
Definition attempt_body (messages : list message) (temp : string) (max_tokens : Z) : M attempt_result :=
  response <- session_post ;;
  if status_code response =? 200 then
    match resp_content response with
    | Some result => _ <- set cfg messages (CURRENT_MODEL cfg) temp max_tokens result ;; ret (Returned result)
    | None => raise KeyError
    end
  else if negb (mem (status_code response) [429; 500; 502; 503; 504]) then
    raise (Exception ("API call failed: " ++ repr_int (status_code response) ++ " - " ++ resp_text response))
  else ret (Failed ("HTTP " ++ repr_int (status_code response) ++ ": " ++ resp_text response)).

(** [0.5 * (1.5 ** attempt)] seconds, in microseconds. *)
Definition backoff_us (attempt : nat) : Z :=
  500000 * 3 ^ Z.of_nat attempt / 2 ^ Z.of_nat attempt.

(** [for attempt in range(3)], from [attempt] on with [fuel] rounds left. *)
Fixpoint retry_loop (messages : list message) (temp : string) (max_tokens : Z)
    (fuel attempt : nat) (last_error : string) : M string :=
  match fuel with
  | O => raise (Exception ("API call failed after retries - " ++ last_error))
  | S f =>
      r <- try_transport (attempt_body messages temp max_tokens) (fun e => ret (Failed e)) ;;
      match r with
      | Returned result => ret result
      | Failed le =>
          _ <- (if Nat.ltb attempt 2 then sleep (backoff_us attempt) else ret tt) ;;
          retry_loop messages temp max_tokens f (S attempt) le
      end
  end.

(** Python truthiness of a [str]. *)
Definition truthy (s : string) : bool := negb (String.eqb s EmptyString).

Definition call_ai_api (messages : list message) (temperature : option string) (max_tokens : option Z)
    : M string :=
  let '(opt_temperature, opt_max_tokens) := _optimize_parameters_for_speed temperature max_tokens in
  cached_response <- get cfg messages (CURRENT_MODEL cfg) opt_temperature opt_max_tokens ;;
  match cached_response with
  | Some c => if truthy c then ret c else retry_loop messages opt_temperature opt_max_tokens 3 0 EmptyString
  | None => retry_loop messages opt_temperature opt_max_tokens 3 0 EmptyString
  end.

End Client.

(* ------------------------------------------------------------------ *)
(** ** Observations and sample inputs *)

(** [datetime.now()] in a world. *)
Definition local_now (cfg : config) (w : world) : Z := clock_us w + utc_offset_us cfg.

(** The row stored under a key, if any. *)
Definition lookup_row (key : string) (t : list (string * row)) : option row :=
  option_map snd (find (fun kr => String.eqb (fst kr) key) t).

(** Two conversations that agree turn by turn, each turn's dict holding
    the same items, possibly inserted in another order. *)
Definition messages_equiv (ms1 ms2 : list message) : Prop :=
  Forall2 (fun d1 d2 => Permutation d1 d2 /\ NoDup (map fst d1)) ms1 ms2.

Definition hour_us : Z := 3600000000.

(** The defaults of [config.py], on a host [off] microseconds ahead of UTC. *)
Definition cfg_tz (off : Z) : config :=
  {| API_PROVIDER := "openai"; CURRENT_MODEL := "gpt-3.5-turbo";
     DEFAULT_TEMPERATURE := "0.2"; DEFAULT_MAX_TOKENS := 800;
     ENABLE_RESPONSE_CACHING := true; CACHE_DURATION_MINUTES := 60;
     utc_offset_us := off |}.

Definition cfg_no_cache : config :=
  {| API_PROVIDER := "openai"; CURRENT_MODEL := "gpt-3.5-turbo";
     DEFAULT_TEMPERATURE := "0.2"; DEFAULT_MAX_TOKENS := 800;
     ENABLE_RESPONSE_CACHING := false; CACHE_DURATION_MINUTES := 60;
     utc_offset_us := 0 |}.

(** 2023-11-14 22:13:20.5 UTC. *)
Definition t0 : Z := 1700000000500000.

Definition world_at (t : Z) : world :=
  {| table := []; db_read_fails := false; db_write_fails := false;
     clock_us := t; http_count := 0; trace := [] |}.

Definition at_clock (w : world) (t : Z) : world :=
  {| table := table w; db_read_fails := db_read_fails w; db_write_fails := db_write_fails w;
     clock_us := t; http_count := http_count w; trace := trace w |}.

Definition with_db_failures (w : world) (rd wr : bool) : world :=
  {| table := table w; db_read_fails := rd; db_write_fails := wr;
     clock_us := clock_us w; http_count := http_count w; trace := trace w |}.

Definition always (o : outcome) : nat -> outcome := fun _ => o.

Definition msg_system : message := [("role", "system"); ("content", "You are a helpful assistant.")].
Definition msg_user : message := [("role", "user"); ("content", "What is 2+2?")].
Definition msg_user_reordered : message := [("content", "What is 2+2?"); ("role", "user")].

(** [m] only ever prepends events satisfying [P] to the trace. *)
Definition emits_only (P : event -> Prop) {A} (m : M A) : Prop :=
  forall w, exists l, trace (snd (m w)) = (l ++ trace w)%list /\ Forall P l.

(** The world with [ev] prepended to its trace. *)
Definition push (ev : event) (w : world) : world :=
  {| table := table w; db_read_fails := db_read_fails w; db_write_fails := db_write_fails w;
     clock_us := clock_us w; http_count := http_count w; trace := ev :: trace w |}.

(** The world after [session.post] has sent one request. *)
Definition posted (w : world) : world :=
  {| table := table w; db_read_fails := db_read_fails w; db_write_fails := db_write_fails w;
     clock_us := clock_us w; http_count := S (http_count w);
     trace := EvHttp (http_count w) :: EvPost :: trace w |}.

(** Unfold the monad's plumbing. *)
Ltac run := cbv [bind db_access emit modify read_world ret raise datetime_now set_table]; simpl.

(** A lower-case hexadecimal digit, as [hexdigest] writes them. *)
Definition is_lower_hex (c : ascii) : bool :=
  let n := N_of_ascii c in
  (N.leb 48 n && N.leb n 57) || (N.leb 97 n && N.leb n 102).



(** An upstream outcome the session's [Retry] retries whatever budget is
    left: a transport failure or a status of the forcelist. *)
Definition retried (o : outcome) : bool :=
  match o with
  | Resp st _ _ _ => mem st status_forcelist
  | ConnFail _ | ReadTimeoutFail _ => true
  end.

Definition transport_failure (o : outcome) : bool :=
  match o with
  | Resp _ _ _ _ => false
  | ConnFail _ | ReadTimeoutFail _ => true
  end.

Definition forcelist_status (o : outcome) : bool :=
  match o with
  | Resp st _ _ _ => mem st status_forcelist
  | ConnFail _ | ReadTimeoutFail _ => false
  end.

(** The reason urllib3 reports when the budget runs out on [o]. *)
Definition failure_reason (o : outcome) : string :=
  match o with
  | Resp st _ _ _ => too_many_msg st
  | ConnFail r | ReadTimeoutFail r => r
  end.

(** The exception [session.post] raises when the budget runs out on [o]. *)
Definition exhausted_exn (o : outcome) : exn :=
  match o with
  | Resp _ _ _ _ => RetryError (max_retries_msg (failure_reason o))
  | ConnFail _ | ReadTimeoutFail _ => ConnectionError (max_retries_msg (failure_reason o))
  end.

(** The events of [k] requests sent from request number [h] on, newest first. *)
Fixpoint http_events (h k : nat) : list event :=
  match k with
  | O => []
  | Datatypes.S k' => EvHttp (k' + h) :: http_events h k'
  end.

(** The world after [k] more requests upstream. *)
Definition after_requests (w : world) (k : nat) : world :=
  {| table := table w; db_read_fails := db_read_fails w; db_write_fails := db_write_fails w;
     clock_us := clock_us w; http_count := (k + http_count w)%nat;
     trace := (http_events (http_count w) k ++ trace w)%list |}.




(** The letter [d] with its case switched up ([d] a lower-case letter). *)
Definition upper_of (d : ascii) : ascii := ascii_of_N (N_of_ascii d - 32).

Definition is_lower_letter (d : ascii) : bool := N.leb 97 (N_of_ascii d) && N.leb (N_of_ascii d) 122.

(** [s] spells [t] letter by letter, each in either case. *)
Fixpoint caseless_eq (s t : string) : bool :=
  match s, t with
  | EmptyString, EmptyString => true
  | String c s', String d t' => (Ascii.eqb c d || Ascii.eqb c (upper_of d)) && caseless_eq s' t'
  | _, _ => false
  end.

(** The backtick that opens a Markdown fence. *)
Definition backtick : ascii := "`"%char.

(** No character of [s] is [c]. *)
Definition no_char (c : ascii) (s : string) : bool :=
  forallb (fun x => negb (Ascii.eqb x c)) (list_ascii_of_string s).

(* ------------------------------------------------------------------ *)
(** ** The module-level entry points of [ai_api.py] *)

(** [call_deepseek(messages, temperature, max_tokens)], which forwards to
    the global [ai_client]. *)
Definition call_deepseek (cfg : config) (upstream : nat -> outcome) (messages : list message)
    (temperature : option string) (max_tokens : option Z) : M string :=
  call_ai_api cfg upstream messages temperature max_tokens.

(** [cleanup_cache()] *)
Definition cleanup_cache : M unit := cleanup_expired.

(* ------------------------------------------------------------------ *)
(** ** [config.Config]: settings read from the environment *)

Module Config.

Local Open Scope string_scope.

(** [os.environ]: variable names and their values. *)
Definition environ := list (string * string).

(** [os.getenv(key)] *)
Definition getenv (env : environ) (key : string) : option string :=
  option_map snd (find (fun kv => String.eqb (fst kv) key) env).

(** [os.getenv(key, default)] *)
Definition getenv_or (env : environ) (key default : string) : string :=
  match getenv env key with Some v => v | None => default end.

(** [str.lower] on the code points 0..255: A-Z and the Latin-1 capitals
    U+00C0..U+00DE, except U+00D7, move down by 32. *)
Definition lower_char (c : ascii) : ascii :=
  let n := N_of_ascii c in
  if (N.leb 65 n && N.leb n 90) || (N.leb 192 n && N.leb n 222 && negb (N.eqb n 215))
  then ascii_of_N (n + 32) else c.

Fixpoint lower (s : string) : string :=
  match s with
  | EmptyString => EmptyString
  | String c t => String (lower_char c) (lower t)
  end.

Definition API_PROVIDER (env : environ) : string := lower (getenv_or env "API_PROVIDER" "openai").

Definition OPENAI_API_KEY (env : environ) : string := getenv_or env "OPENAI_API_KEY" EmptyString.

Definition OPENAI_API_URL (env : environ) : string :=
  getenv_or env "OPENAI_API_URL" "https://api.openai.com/v1/chat/completions".

Definition OPENAI_MODEL (env : environ) : string := getenv_or env "OPENAI_MODEL" "gpt-3.5-turbo".

Definition DEEPSEEK_API_KEY (env : environ) : string := getenv_or env "DEEPSEEK_API_KEY" EmptyString.

Definition DEEPSEEK_API_URL (env : environ) : string :=
  getenv_or env "DEEPSEEK_API_URL" "https://api.deepseek.com/v1/chat/completions".

Definition DEEPSEEK_MODEL (env : environ) : string := getenv_or env "DEEPSEEK_MODEL" "deepseek-chat".

Definition CURRENT_API_KEY (env : environ) : string :=
  if String.eqb (API_PROVIDER env) "openai" then OPENAI_API_KEY env else DEEPSEEK_API_KEY env.

Definition CURRENT_API_URL (env : environ) : string :=
  if String.eqb (API_PROVIDER env) "openai" then OPENAI_API_URL env else DEEPSEEK_API_URL env.

Definition CURRENT_MODEL (env : environ) : string :=
  if String.eqb (API_PROVIDER env) "openai" then OPENAI_MODEL env else DEEPSEEK_MODEL env.

Definition ENABLE_RESPONSE_CACHING (env : environ) : bool :=
  String.eqb (lower (getenv_or env "ENABLE_RESPONSE_CACHING" "true")) "true".

(** How [Config()] ends: constructed, or [sys.exit(code)]. *)
Inductive init_result := Initialised | SystemExit (code : Z).

(** [_validate_required_env_vars], run by [Config.__init__]; the
    messages it prints before exiting are left out.  [not
    os.getenv(required_key)] holds for an unset or an empty variable. *)
Definition _validate_required_env_vars (env : environ) : init_result :=
  let api_provider := API_PROVIDER env in
  let required_key := if String.eqb api_provider "openai" then "OPENAI_API_KEY" else "DEEPSEEK_API_KEY" in
  match getenv env required_key with
  | None => SystemExit 1
  | Some v => if String.eqb v EmptyString then SystemExit 1 else Initialised
  end.

Definition get_api_headers (env : environ) : list (string * string) :=
  [("Authorization", "Bearer " ++ CURRENT_API_KEY env); ("Content-Type", "application/json")].

End Config.

(* ------------------------------------------------------------------ *)
(** ** [dynamic_quiz_generator.py], a caller of [call_deepseek] *)

Module Quiz.

#[local] Set Warnings "-register-all".

Local Open Scope string_scope.

(** The values [json.loads] returns; a dict is the list of its items. *)
Inductive pyval :=
| PStr (s : string)
| PNum (repr : string)
| PBool (b : bool)
| PNone
| PList (l : list pyval)
| PDict (d : list (string * pyval)).

Definition dict_get (d : list (string * pyval)) (k : string) : option pyval :=
  option_map snd (find (fun kv => String.eqb (fst kv) k) d).

(** What [list.extend] iterates over: the elements of a list, the
    one-character strings of a str, the keys of a dict; any other value
    is not iterable ([TypeError]). *)
Definition py_iter (v : pyval) : option (list pyval) :=
  match v with
  | PList l => Some l
  | PStr s => Some (map (fun c => PStr (String c EmptyString)) (list_ascii_of_string s))
  | PDict d => Some (map (fun kv => PStr (fst kv)) d)
  | PNum _ | PBool _ | PNone => None
  end.

Definition quiz (question : string) (options : list string) (answer explanation : string) : pyval :=
  PDict [("question", PStr question); ("options", PList (map PStr options));
         ("answer", PStr answer); ("explanation", PStr explanation)].

Definition MOCK_QUIZZES : list pyval :=
  [quiz "Can a notary who has been removed from office serve again?"
        ["A. Yes"; "B. Must retake the exam"; "C. Permanently banned"; "D. Automatically reinstated after 1 year"]
        "C" "The law prohibits reapplication after removal.";
   quiz "Is it legal for a notary to notarize a document without seeing the signer in person?"
        ["A. Legal"; "B. Legal if noted"; "C. Illegal"; "D. Assistant may sign instead"]
        "C" "Verifying identity in person is a fundamental requirement."].

(** [SYSTEM_PROMPT_TEMPLATE.format(n=n)]: the doubled braces of the
    template become single ones. *)
Definition SYSTEM_PROMPT_TEMPLATE_format (n : Z) : string :=
  sq_to_dq "
You are a professional exam question generator.
Based on the following lesson content, generate " ++ repr_int n ++ sq_to_dq " realistic, scenario-based multiple-choice questions (single answer).

Each question should:
- Simulate real-world scenarios
- Have 4 answer choices (A/B/C/D)
- Mark the correct answer (A, B, C, or D)
- Provide a short explanation of the correct answer

Respond in the following JSON format:
{
  'quizzes': [
    {
      'question': '...',
      'options': ['A. ...', 'B. ...', 'C. ...', 'D. ...'],
      'answer': 'B',
      'explanation': '...'
    }
  ]
}
".

Definition nl : string := String (ascii_of_nat 10) EmptyString.

Definition batch_messages (lesson_title lesson_content : string) (current_batch_size : Z) : list message :=
  [[("role", "system"); ("content", SYSTEM_PROMPT_TEMPLATE_format current_batch_size)];
   [("role", "user"); ("content", "Lesson Title: " ++ lesson_title ++ nl ++ nl ++ "Lesson Content:" ++ nl ++ lesson_content)]].

(** [sub in s] *)
Definition str_contains (sub s : string) : bool :=
  match String.index 0 sub s with Some _ => true | None => false end.

Fixpoint split_fuel (fuel : nat) (sep s : string) : list string :=
  match fuel with
  | O => [s]
  | Datatypes.S f =>
      match String.index 0 sep s with
      | Some i => String.substring 0 i s
                  :: split_fuel f sep (String.substring (i + String.length sep) (String.length s) s)
      | None => [s]
      end
  end.

(** [s.split(sep)] for a non-empty [sep]: every split consumes a
    character, so [length s + 1] rounds suffice. *)
Definition str_split (s sep : string) : list string := split_fuel (Datatypes.S (String.length s)) sep s.

(** [str.isspace] on the code points 0..255. *)
Definition is_space (c : ascii) : bool :=
  let n := N_of_ascii c in
  (N.leb 9 n && N.leb n 13) || (N.leb 28 n && N.leb n 32) || N.eqb n 133 || N.eqb n 160.

Fixpoint lstrip (s : string) : string :=
  match s with
  | EmptyString => EmptyString
  | String c t => if is_space c then lstrip t else s
  end.

Definition rev_string (s : string) : string := string_of_list_ascii (rev (list_ascii_of_string s)).

(** [s.strip()] *)
Definition str_strip (s : string) : string := rev_string (lstrip (rev_string (lstrip s))).

Definition fence_json : string := "```json".

Definition fence : string := "```".

(** The clean-up of the reply in [generate_dynamic_quiz]; the guards make
    index [1] exist. *)
Definition clean_content (content : string) : string :=
  if str_contains fence_json content then
    str_strip (nth 0 (str_split (nth 1 (str_split content fence_json) EmptyString) fence) EmptyString)
  else if str_contains fence content then
    str_strip (nth 1 (str_split content fence) EmptyString)
  else content.

(** [range(start, stop, step)] for [step >= 1]. *)
Fixpoint range_from (fuel : nat) (i stop step : Z) : list Z :=
  match fuel with
  | O => []
  | Datatypes.S f => if Z.ltb i stop then i :: range_from f (i + step) stop step else []
  end.

Definition range (start stop step : Z) : list Z := range_from (Z.to_nat (stop - start)) start stop step.

Definition batch_size : Z := 10.

(** How one round of the batch loop ends: extend [total_quizzes] or
    [return MOCK_QUIZZES]. *)
Inductive batch_step := Extend (items : list pyval) | ReturnMock.

Section Generator.

Variable cfg : config.
Variable upstream : nat -> outcome.
(** [json.loads]; [None] is [json.JSONDecodeError]. *)
Variable json_loads : string -> option pyval.
(** The draw of [random.randint(a, b)]. *)
Variable randint : Z -> Z -> Z.

Definition count_question_num (content : string) : Z :=
  let length := Z.of_nat (String.length content) in
  if Z.ltb length 300 then randint 1 2
  else if Z.ltb length 700 then randint 3 4
  else if Z.ltb length 1200 then randint 5 7
  else randint 8 10.

(** The body of the [try] after [call_deepseek] has answered [content]. *)
Definition parse_batch (content : string) : batch_step :=
  let content := clean_content content in
  match json_loads content with
  | None => ReturnMock
  | Some (PDict d) =>
      match dict_get d "quizzes" with
      | Some q => match py_iter q with Some items => Extend items | None => ReturnMock end
      | None => ReturnMock
      end
  | Some (PList l) => Extend l
  | Some _ => ReturnMock
  end.

(** One batch: [call_deepseek(messages, temperature=0.8, max_tokens=800)]
    under [except Exception], which every exception of the model is. *)
Definition quiz_batch (lesson_title lesson_content : string) (current_batch_size : Z) : M batch_step :=
  fun w =>
    match call_deepseek cfg upstream (batch_messages lesson_title lesson_content current_batch_size)
                        (Some "0.8") (Some 800) w with
    | (Ok content, w') => (Ok (parse_batch content), w')
    | (Raise _, w') => (Ok ReturnMock, w')
    end.

Fixpoint quiz_loop (lesson_title lesson_content : string) (num_questions : Z) (starts : list Z)
    (total_quizzes : list pyval) : M (list pyval) :=
  match starts with
  | [] => ret total_quizzes
  | batch_start :: rest =>
      step <- quiz_batch lesson_title lesson_content (Z.min batch_size (num_questions - batch_start)) ;;
      match step with
      | ReturnMock => ret MOCK_QUIZZES
      | Extend items => quiz_loop lesson_title lesson_content num_questions rest (total_quizzes ++ items)%list
      end
  end.

Definition generate_dynamic_quiz (lesson_title lesson_content : string) (num_questions : option Z)
    : M (list pyval) :=
  let num_questions :=
    match num_questions with Some n => n | None => count_question_num lesson_content end in
  quiz_loop lesson_title lesson_content num_questions (range 0 num_questions batch_size) [].

End Generator.

End Quiz.

(* ------------------------------------------------------------------ *)
(** ** Tests of the key derivation against Python *)

Example md5_empty : MD5.md5_hexdigest EmptyString = "d41d8cd98f00b204e9800998ecf8427e"%string.
Proof. vm_compute. reflexivity. Qed.

Example md5_abc : MD5.md5_hexdigest "abc" = "900150983cd24fb0d6963f7d28e17f72"%string.
Proof. vm_compute. reflexivity. Qed.

Example cache_string_sample :
  cache_string [[("role", "user"); ("content", "hi")]] "gpt-3.5-turbo" "0.2" 500
  = sq_to_dq "{'max_tokens': 500, 'messages': [{'content': 'hi', 'role': 'user'}], 'model': 'gpt-3.5-turbo', 'temperature': 0.2}".
Proof. vm_compute. reflexivity. Qed.

Example cache_key_sample :
  _generate_cache_key [[("role", "user"); ("content", "hi")]] "gpt-3.5-turbo" "0.2" 500
  = "0c52ca04db6b249dd220a8b216d963e7"%string.
Proof. vm_compute. reflexivity. Qed.


(* ------------------------------------------------------------------ *)
(** ** Sorting the items of a dict *)

Module SortItems.

Definition key_le (x y : string * string) : Prop := String.leb (fst x) (fst y) = true.

Lemma ascii_compare_N (c1 c2 : ascii) :
  Ascii.compare c1 c2 = N.compare (N_of_ascii c1) (N_of_ascii c2).
Proof. reflexivity. Qed.

Lemma string_leb_trans (a b c : string) :
  String.leb a b = true -> String.leb b c = true -> String.leb a c = true.
Proof.
  unfold String.leb. revert b c.
  induction a as [|ca a IH]; intros [|cb b] [|cc c]; simpl; auto; try discriminate.
  rewrite !ascii_compare_N.
  destruct (N.compare_spec (N_of_ascii ca) (N_of_ascii cb)) as [E1|E1|E1];
  destruct (N.compare_spec (N_of_ascii cb) (N_of_ascii cc)) as [E2|E2|E2];
  intros H1 H2; try discriminate.
  - rewrite E1, E2, N.compare_refl. eauto.
  - rewrite E1, (proj2 (N.compare_lt_iff _ _) E2). reflexivity.
  - rewrite <- E2, (proj2 (N.compare_lt_iff _ _) E1). reflexivity.
  - rewrite (proj2 (N.compare_lt_iff _ _) (N.lt_trans _ _ _ E1 E2)). reflexivity.
Qed.

#[local] Instance key_le_trans : RelationClasses.Transitive key_le.
Proof. intros x y z. unfold key_le. apply string_leb_trans. Qed.

Lemma insert_item_perm x l : Permutation (insert_item x l) (x :: l).
Proof.
  induction l as [|y l IH]; simpl; auto.
  destruct (String.leb (fst x) (fst y)); auto.
  rewrite IH. apply perm_swap.
Qed.

Lemma sort_items_perm l : Permutation (sort_items l) l.
Proof.
  induction l as [|x l IH]; simpl; auto.
  rewrite insert_item_perm. auto.
Qed.

Lemma insert_item_hd a x l :
  key_le a x -> HdRel key_le a l -> HdRel key_le a (insert_item x l).
Proof.
  intros Hax Hl. destruct l as [|y l]; simpl.
  - constructor. exact Hax.
  - destruct (String.leb (fst x) (fst y)); constructor; auto.
    inversion Hl; auto.
Qed.

Lemma insert_item_sorted x l : Sorted key_le l -> Sorted key_le (insert_item x l).
Proof.
  induction l as [|y l IH]; intros Hs; simpl.
  - repeat constructor.
  - destruct (String.leb (fst x) (fst y)) eqn:E.
    + apply Sorted_cons; [exact Hs | apply HdRel_cons; exact E].
    + inversion Hs; subst. constructor; auto.
      apply insert_item_hd; auto.
      unfold key_le. destruct (String.leb_total (fst x) (fst y)) as [H|H]; congruence.
Qed.

Lemma sort_items_sorted l : Sorted key_le (sort_items l).
Proof.
  induction l as [|x l IH]; simpl; auto using insert_item_sorted.
Qed.

(** Two key-sorted arrangements of the same items with distinct keys
    are the same list. *)
Lemma sorted_perm_unique l1 l2 :
  StronglySorted key_le l1 -> StronglySorted key_le l2 ->
  Permutation l1 l2 -> NoDup (map fst l1) -> l1 = l2.
Proof.
  revert l2. induction l1 as [|x l1 IH]; intros l2 S1 S2 P ND.
  - symmetry. apply Permutation_nil. exact P.
  - destruct l2 as [|y l2].
    + apply Permutation_sym, Permutation_nil in P. discriminate.
    + inversion S1 as [|? ? S1' F1]; inversion S2 as [|? ? S2' F2]; subst.
      inversion ND as [|? ? Nx ND']; subst.
      assert (Hxy : x = y).
      { assert (Hy : In y (x :: l1)) by (apply (Permutation_in y (Permutation_sym P)); left; auto).
        assert (Hx : In x (y :: l2)) by (apply (Permutation_in x P); left; auto).
        destruct Hy as [Hy|Hy]; [auto|]. destruct Hx as [Hx|Hx]; [auto|].
        exfalso. apply Nx.
        assert (Kxy : fst x = fst y).
        { apply String.leb_antisym.
          - exact (proj1 (Forall_forall _ _) F1 y Hy).
          - exact (proj1 (Forall_forall _ _) F2 x Hx). }
        rewrite Kxy. apply in_map. exact Hy. }
      subst y. f_equal. apply IH; auto.
      eapply Permutation_cons_inv. exact P.
Qed.

Lemma sort_items_perm_eq l1 l2 :
  Permutation l1 l2 -> NoDup (map fst l1) -> sort_items l1 = sort_items l2.
Proof.
  intros P ND. apply sorted_perm_unique.
  - apply Sorted_StronglySorted; [exact key_le_trans | apply sort_items_sorted].
  - apply Sorted_StronglySorted; [exact key_le_trans | apply sort_items_sorted].
  - rewrite !sort_items_perm. exact P.
  - eapply Permutation_NoDup; [|exact ND].
    apply Permutation_map. symmetry. apply sort_items_perm.
Qed.

End SortItems.

Lemma encode_items_perm l1 l2 :
  Permutation l1 l2 -> NoDup (map fst l1) -> encode_items l1 = encode_items l2.
Proof.
  intros P ND. unfold encode_items. rewrite (SortItems.sort_items_perm_eq l1 l2 P ND). reflexivity.
Qed.

Lemma message_json_perm (d1 d2 : message) :
  Permutation d1 d2 -> NoDup (map fst d1) -> dumps (message_json d1) = dumps (message_json d2).
Proof.
  intros P ND. unfold message_json. cbn [dumps]. rewrite !map_map.
  apply encode_items_perm.
  - apply Permutation_map. exact P.
  - rewrite map_map. erewrite map_ext; [exact ND|]. intros [k v]. reflexivity.
Qed.

(* ------------------------------------------------------------------ *)
(** ** Events a computation may emit *)

Module Traces.

Section Emits.

Variable P : event -> Prop.

Lemma ret_emits {A} (a : A) : emits_only P (ret a).
Proof. intros w. exists []. split; auto. Qed.

Lemma raise_emits {A} e : emits_only P (@raise A e).
Proof. intros w. exists []. split; auto. Qed.

Lemma read_world_emits : emits_only P read_world.
Proof. intros w. exists []. split; auto. Qed.

Lemma set_table_emits t : emits_only P (set_table t).
Proof. intros w. exists []. split; auto. Qed.

Lemma emit_emits e : P e -> emits_only P (emit e).
Proof. intros He w. exists [e]. split; auto. Qed.

(** Running [bind m k] from a state in which [m] has already emitted
    events up to [base]. *)
Lemma bind_prefix {A B} (m : M A) (k : A -> M B) w base :
  (exists l, trace (snd (m w)) = (l ++ base)%list /\ Forall P l) ->
  (forall a, emits_only P (k a)) ->
  exists l, trace (snd (bind m k w)) = (l ++ base)%list /\ Forall P l.
Proof.
  intros [l1 [E1 F1]] Hk. unfold bind.
  destruct (m w) as [[a|e] w1]; simpl in *.
  - destruct (Hk a w1) as [l2 [E2 F2]]. exists (l2 ++ l1)%list.
    rewrite E2, E1, app_assoc. split; auto. apply Forall_app; auto.
  - exists l1. auto.
Qed.

Lemma bind_emits {A B} (m : M A) (k : A -> M B) :
  emits_only P m -> (forall a, emits_only P (k a)) -> emits_only P (bind m k).
Proof. intros Hm Hk w. apply bind_prefix; auto. Qed.

Lemma try_transport_prefix {A} (m : M A) h w base :
  (exists l, trace (snd (m w)) = (l ++ base)%list /\ Forall P l) ->
  (forall e, emits_only P (h e)) ->
  exists l, trace (snd (try_transport m h w)) = (l ++ base)%list /\ Forall P l.
Proof.
  intros [l1 [E1 F1]] Hh. unfold try_transport.
  destruct (m w) as [[a|[| | |msg|msg|msg]] w1]; simpl in *; eauto;
  destruct (Hh msg w1) as [l2 [E2 F2]]; exists (l2 ++ l1)%list;
  rewrite E2, E1, app_assoc; split; auto; apply Forall_app; auto.
Qed.

Lemma try_transport_emits {A} (m : M A) h :
  emits_only P m -> (forall e, emits_only P (h e)) -> emits_only P (try_transport m h).
Proof. intros Hm Hh w. apply try_transport_prefix; auto. Qed.

Hypothesis P_post : P EvPost.
Hypothesis P_http : forall n, P (EvHttp n).
Hypothesis P_sleep : forall us, P (EvSleep us).

Lemma sleep_emits us : emits_only P (sleep us).
Proof. intros w. exists [EvSleep us]. split; auto. Qed.

Section WithUpstream.

Variable cfg : config.
Variable upstream : nat -> outcome.

Lemma http_request_trace w :
  trace (snd (http_request upstream w)) = ([] ++ EvHttp (http_count w) :: trace w)%list.
Proof. reflexivity. Qed.

Lemma urlopen_emits t : emits_only P (urlopen upstream t).
Proof.
  induction t as [|t IH]; intros w; simpl;
  (apply bind_prefix; [exists [EvHttp (http_count w)]; split; auto|]);
  intros [st txt ra c|r|r]; try destruct (is_retry st ra _);
  auto using ret_emits, raise_emits.
Qed.

(** The first thing [urlopen] does is send a request. *)
Lemma urlopen_prefix t w :
  exists l, trace (snd (urlopen upstream t w)) = (l ++ EvHttp (http_count w) :: trace w)%list /\ Forall P l.
Proof.
  destruct t as [|t]; simpl;
  (apply bind_prefix; [exists []; split; auto|]);
  intros [st txt ra c|r|r]; try destruct (is_retry st ra _);
  auto using ret_emits, raise_emits, urlopen_emits.
Qed.

Lemma session_post_prefix w :
  exists l, trace (snd (session_post upstream w)) = (l ++ EvHttp (http_count w) :: EvPost :: trace w)%list
            /\ Forall P l.
Proof. exact (urlopen_prefix 3 _). Qed.

Hypothesis set_ok : forall ms model t k r, emits_only P (set cfg ms model t k r).

Lemma attempt_body_prefix ms t k w :
  exists l, trace (snd (attempt_body cfg upstream ms t k w))
            = (l ++ EvHttp (http_count w) :: EvPost :: trace w)%list /\ Forall P l.
Proof.
  unfold attempt_body. apply bind_prefix; [apply session_post_prefix|].
  intros r. destruct (status_code r =? 200); [destruct (resp_content r)|];
  try destruct (negb _); auto using ret_emits, raise_emits, bind_emits.
Qed.

Lemma retry_loop_emits ms t k fuel : forall a le, emits_only P (retry_loop cfg upstream ms t k fuel a le).
Proof.
  induction fuel as [|f IH]; intros a le; [apply raise_emits|].
  intros w. simpl. apply bind_prefix.
  - apply try_transport_prefix; [|auto using ret_emits].
    destruct (attempt_body_prefix ms t k w) as [l [E F]].
    exists (l ++ [EvHttp (http_count w); EvPost])%list. rewrite E, <- app_assoc. split; auto.
    apply Forall_app; auto.
  - intros [r|le']; [apply ret_emits|].
    apply bind_emits; [destruct (Nat.ltb a 2); auto using sleep_emits, ret_emits|].
    intros _. apply IH.
Qed.

(** Every round of the loop reaches the upstream. *)
Lemma retry_loop_prefix ms t k f a le w :
  exists l, trace (snd (retry_loop cfg upstream ms t k (S f) a le w))
            = (l ++ EvHttp (http_count w) :: EvPost :: trace w)%list /\ Forall P l.
Proof.
  simpl. apply bind_prefix.
  - apply try_transport_prefix; [apply attempt_body_prefix | auto using ret_emits].
  - intros [r|le']; [apply ret_emits|].
    apply bind_emits; [destruct (Nat.ltb a 2); auto using sleep_emits, ret_emits|].
    intros _. apply retry_loop_emits.
Qed.

End WithUpstream.

End Emits.

End Traces.

(* ------------------------------------------------------------------ *)
(** ** Symbolic steps of the cache and the session *)

Module Steps.


Lemma get_disabled cfg ms model t k w :
  ENABLE_RESPONSE_CACHING cfg = false -> get cfg ms model t k w = (Ok None, w).
Proof. intros H. unfold get. rewrite H. reflexivity. Qed.

Lemma set_disabled cfg ms model t k r :
  ENABLE_RESPONSE_CACHING cfg = false -> set cfg ms model t k r = ret tt.
Proof. intros H. unfold set. rewrite H. reflexivity. Qed.

Lemma get_read_failure cfg ms model t k w :
  ENABLE_RESPONSE_CACHING cfg = true -> db_read_fails w = true ->
  get cfg ms model t k w = (Raise OperationalError, push EvDb w).
Proof. intros H Hr. unfold get, push. rewrite H. run. rewrite Hr. reflexivity. Qed.

Lemma set_write_failure cfg ms model t k r w :
  ENABLE_RESPONSE_CACHING cfg = true -> db_write_fails w = true ->
  set cfg ms model t k r w = (Raise OperationalError, push EvDb w).
Proof. intros H Hw. unfold set, push. rewrite H. run. rewrite Hw. reflexivity. Qed.

(** [get] touches nothing but the trace, and on a hit it has made
    exactly one storage access. *)
Lemma get_world cfg ms model t k w :
  snd (get cfg ms model t k w) = w \/ snd (get cfg ms model t k w) = push EvDb w.
Proof.
  unfold get, push. destruct (ENABLE_RESPONSE_CACHING cfg); run; [|auto].
  destruct (db_read_fails w); simpl; auto.
Qed.

Lemma get_hit_world cfg ms model t k w v :
  fst (get cfg ms model t k w) = Ok (Some v) -> snd (get cfg ms model t k w) = push EvDb w.
Proof.
  unfold get, push. destruct (ENABLE_RESPONSE_CACHING cfg); run; [|discriminate].
  destruct (db_read_fails w); simpl; [discriminate|auto].
Qed.

Lemma set_emits_all cfg ms model t k r : emits_only (fun _ => True) (set cfg ms model t k r).
Proof.
  intros w. unfold set. destruct (ENABLE_RESPONSE_CACHING cfg); run.
  - destruct (db_write_fails w); simpl; [exists [EvDb] | exists [EvDb]]; split; auto.
  - exists []. auto.
Qed.

(** An answer the [Retry] policy does not retry comes back from the
    first request. *)
Lemma session_post_answer up w st body ra c :
  up (http_count w) = Resp st body ra c -> is_retry st ra 3 = false ->
  session_post up w = (Ok {| status_code := st; resp_text := body; resp_content := c |}, posted w).
Proof.
  intros Hup Hr. destruct w as [tb rf wf ck n tr]. simpl in Hup.
  cbv [session_post urlopen bind http_request emit modify read_world ret raise http_count trace].
  rewrite Hup. cbv beta iota. rewrite Hr. reflexivity.
Qed.

Lemma is_retry_200 ra t : is_retry 200 ra t = false.
Proof. unfold is_retry. simpl. destruct (Nat.eqb t 0), ra; reflexivity. Qed.

Lemma cleanup_world w :
  db_write_fails w = false ->
  snd (cleanup_expired w)
  = {| table := sweep (CURRENT_TIMESTAMP (clock_us w)) (table w);
       db_read_fails := db_read_fails w; db_write_fails := db_write_fails w;
       clock_us := clock_us w; http_count := http_count w; trace := EvDb :: trace w |}.
Proof. intros Hw. unfold cleanup_expired. run. rewrite Hw. reflexivity. Qed.

Lemma filter_all_true {A} (f : A -> bool) l :
  (forall x, In x l -> f x = true) -> filter f l = l.
Proof.
  induction l as [|x l IH]; intros H; simpl; auto.
  rewrite (H x (or_introl eq_refl)), IH; auto.
  intros y Hy. apply H. right. exact Hy.
Qed.

End Steps.

(* ------------------------------------------------------------------ *)
(** ** Facts about the rest of the code *)

Module Facts.

Local Open Scope string_scope.
Local Open Scope Z_scope.

Lemma http_events_app h j k :
  http_events h (k + j) = (http_events (j + h) k ++ http_events h j)%list.
Proof.
  induction k as [|k IH]; simpl; auto.
  rewrite IH. f_equal. f_equal. lia.
Qed.

Lemma after_requests_add w j k :
  after_requests (after_requests w j) k = after_requests w (k + j).
Proof.
  unfold after_requests; simpl. rewrite http_events_app, app_assoc. f_equal. lia.
Qed.

Lemma emit_push e w : emit e w = (Ok tt, push e w).
Proof. reflexivity. Qed.

Lemma urlopen_eq up total w :
  urlopen up total w =
  (match up (http_count w) with
   | Resp st txt ra c =>
       if is_retry st ra total then
         match total with
         | O => raise (RetryError (max_retries_msg (too_many_msg st)))
         | Datatypes.S t => urlopen up t
         end
       else ret {| status_code := st; resp_text := txt; resp_content := c |}
   | ConnFail r | ReadTimeoutFail r =>
       match total with
       | O => raise (ConnectionError (max_retries_msg r))
       | Datatypes.S t => urlopen up t
       end
   end) (after_requests w 1).
Proof. destruct total; reflexivity. Qed.

Lemma retried_is_retry st txt ra c total :
  retried (Resp st txt ra c) = true -> is_retry st ra total = true.
Proof. cbn [retried]. intros H. unfold is_retry. rewrite H. reflexivity. Qed.

Lemma urlopen_exhausts up total w :
  (forall i, (i <= total)%nat -> retried (up (i + http_count w)%nat) = true) ->
  urlopen up total w = (Raise (exhausted_exn (up (total + http_count w)%nat)), after_requests w (Datatypes.S total)).
Proof.
  revert w. induction total as [|t IH]; intros w H; rewrite urlopen_eq.
  - specialize (H 0%nat (le_n _)). simpl in H |- *.
    destruct (up (http_count w)) as [st txt ra c|r|r]; [rewrite (retried_is_retry _ txt _ c _ H)|..]; reflexivity.
  - pose proof (H 0%nat (Nat.le_0_l _)) as H0. simpl in H0.
    assert (Hn : forall i, (i <= t)%nat -> retried (up (i + http_count (after_requests w 1))%nat) = true).
    { intros i Hi. simpl. replace (i + Datatypes.S (http_count w))%nat with (Datatypes.S i + http_count w)%nat by lia.
      apply H. lia. }
    destruct (up (http_count w)) as [st txt ra c|r|r] eqn:E;
    [rewrite (retried_is_retry _ txt _ c _ H0)|..];
    rewrite (IH _ Hn), after_requests_add; simpl;
    replace (t + Datatypes.S (http_count w))%nat with (Datatypes.S (t + http_count w)) by lia;
    rewrite ?Nat.add_1_r; reflexivity.
Qed.


Lemma set_world cfg ms model t k v w :
  ENABLE_RESPONSE_CACHING cfg = true -> db_write_fails w = false ->
  set cfg ms model t k v w =
  (Ok tt, {| table := insert_or_replace (_generate_cache_key ms model t k)
                {| response := v; created_at := CURRENT_TIMESTAMP (clock_us w);
                   expires_at := adapt_datetime (local_now cfg w + CACHE_DURATION_MINUTES cfg * 60 * 1000000) |}
                (table w);
             db_read_fails := db_read_fails w; db_write_fails := db_write_fails w; clock_us := clock_us w;
             http_count := http_count w; trace := EvDb :: trace w |}).
Proof.
  intros He Hw. unfold set. rewrite He.
  cbv [negb bind db_access emit modify read_world ret raise datetime_now set_table].
  destruct w as [tb rf wf ck n tr]. cbn [db_write_fails] in Hw. subst wf. reflexivity.
Qed.





Lemma get_result cfg ms model t k w :
  fst (get cfg ms model t k w)
  = if ENABLE_RESPONSE_CACHING cfg then
      if db_read_fails w then Raise OperationalError
      else Ok (select_response (_generate_cache_key ms model t k) (CURRENT_TIMESTAMP (clock_us w)) (table w))
    else Ok None.
Proof.
  unfold get. destruct (ENABLE_RESPONSE_CACHING cfg); [|reflexivity].
  cbv [negb bind db_access emit modify read_world ret raise].
  destruct w as [tb rf wf ck n tr]. cbn [db_read_fails table clock_us]. destruct rf; reflexivity.
Qed.

Lemma find_filter {A} (p q : A -> bool) l :
  (forall x, p x = true -> q x = true) -> find p (filter q l) = find p l.
Proof.
  intros H. induction l as [|x l IH]; simpl; auto.
  destruct (q x) eqn:Eq; simpl.
  - destruct (p x); auto.
  - destruct (p x) eqn:Ep; auto. rewrite (H x Ep) in Eq. discriminate.
Qed.

Lemma find_filter_none {A} (p q : A -> bool) l :
  (forall x, q x = true -> p x = false) -> find p (filter q l) = None.
Proof.
  intros H. induction l as [|x l IH]; simpl; auto.
  destruct (q x) eqn:Eq; simpl; auto. rewrite (H x Eq). exact IH.
Qed.

Lemma lookup_insert_same key r t : lookup_row key (insert_or_replace key r t) = Some r.
Proof. unfold lookup_row, insert_or_replace. simpl. rewrite String.eqb_refl. reflexivity. Qed.

Lemma lookup_insert_other key key' r t :
  key' <> key -> lookup_row key' (insert_or_replace key r t) = lookup_row key' t.
Proof.
  intros Hne. unfold lookup_row, insert_or_replace. simpl.
  destruct (String.eqb_spec key key') as [E|_]; [congruence|].
  rewrite find_filter; [reflexivity|].
  intros [k0 r0] H. simpl in *. apply String.eqb_eq in H. subst k0.
  apply negb_true_iff, String.eqb_neq. exact Hne.
Qed.

Lemma insert_nodup key r t : NoDup (map fst t) -> NoDup (map fst (insert_or_replace key r t)).
Proof.
  intros ND. unfold insert_or_replace. simpl. constructor.
  - intros Hin. apply in_map_iff in Hin. destruct Hin as [[k0 r0] [E Hin]]. simpl in E. subst k0.
    apply filter_In in Hin. destruct Hin as [_ Hf]. simpl in Hf. rewrite String.eqb_refl in Hf. discriminate.
  - induction t as [|x t IH]; simpl; [constructor|].
    inversion ND as [|? ? Nx ND']; subst.
    destruct (negb (String.eqb (fst x) key)); simpl; auto.
    constructor; auto.
    intros Hin. apply Nx. apply in_map_iff in Hin. destruct Hin as [y [E Hin]].
    apply filter_In in Hin. rewrite <- E. apply in_map. tauto.
Qed.

Lemma select_insert key now r t :
  select_response key now (insert_or_replace key r t)
  = if text_gt (expires_at r) now then Some (response r) else None.
Proof.
  unfold select_response, insert_or_replace. simpl. rewrite String.eqb_refl. simpl.
  destruct (text_gt (expires_at r) now); [reflexivity|].
  rewrite find_filter_none; [reflexivity|].
  intros [k0 r0] H. simpl in *. apply negb_true_iff, String.eqb_neq in H.
  apply andb_false_iff. left. apply String.eqb_neq. exact H.
Qed.

Lemma text_gt_adapt e u :
  text_gt (adapt_datetime e) (CURRENT_TIMESTAMP u) = (1000000 * (u / 1000000) <? e).
Proof.
  unfold text_gt, adapt_datetime, CURRENT_TIMESTAMP. cbn [ts_sec ts_frac].
  pose proof (Z.div_mod e 1000000 ltac:(lia)) as De.
  pose proof (Z.mod_pos_bound e 1000000 ltac:(lia)) as Be.
  set (q := e / 1000000) in *. set (r := e mod 1000000) in *. set (a := u / 1000000).
  destruct (Z.eqb_spec r 0) as [Hr|Hr]; unfold frac_gt;
  destruct (Z.ltb_spec a q); destruct (Z.eqb_spec q a); destruct (Z.ltb_spec (1000000 * a) e);
  simpl; try reflexivity; exfalso; lia.
Qed.

Lemma sweep_select key now t :
  select_response key now (sweep now t) = select_response key now t.
Proof.
  unfold select_response, sweep. rewrite find_filter; [reflexivity|].
  intros kr H. apply andb_true_iff in H. destruct H as [_ H].
  unfold text_le. rewrite H. reflexivity.
Qed.

Lemma retry_loop_S cfg up ms t k f a le w :
  retry_loop cfg up ms t k (Datatypes.S f) a le w =
  match try_transport (attempt_body cfg up ms t k) (fun e => ret (Failed e)) w with
  | (Ok (Returned r), w1) => (Ok r, w1)
  | (Ok (Failed le'), w1) =>
      match (if Nat.ltb a 2 then sleep (backoff_us a) else ret tt) w1 with
      | (Ok _, w2) => retry_loop cfg up ms t k f (Datatypes.S a) le' w2
      | (Raise e, w2) => (Raise e, w2)
      end
  | (Raise e, w1) => (Raise e, w1)
  end.
Proof.
  cbn [retry_loop]. unfold bind.
  destruct (try_transport _ _ w) as [[[r|e']|e] w1]; reflexivity.
Qed.

Lemma attempt_body_eq cfg up ms t k w :
  attempt_body cfg up ms t k w =
  match session_post up w with
  | (Ok response, w1) =>
      (if status_code response =? 200 then
         match resp_content response with
         | Some result => _ <- set cfg ms (CURRENT_MODEL cfg) t k result ;; ret (Returned result)
         | None => raise KeyError
         end
       else if negb (mem (status_code response) [429; 500; 502; 503; 504]) then
         raise (Exception ("API call failed: " ++ repr_int (status_code response) ++ " - " ++ resp_text response))
       else ret (Failed ("HTTP " ++ repr_int (status_code response) ++ ": " ++ resp_text response))) w1
  | (Raise e, w1) => (Raise e, w1)
  end.
Proof. reflexivity. Qed.

Lemma session_post_eq up w : session_post up w = urlopen up 3 (push EvPost w).
Proof. reflexivity. Qed.

Lemma sleep_world us w :
  snd (sleep us w)
  = {| table := table w; db_read_fails := db_read_fails w; db_write_fails := db_write_fails w;
       clock_us := clock_us w + us; http_count := http_count w; trace := EvSleep us :: trace w |}.
Proof. reflexivity. Qed.

Lemma sleep_ok us w : fst (sleep us w) = Ok tt.
Proof. reflexivity. Qed.



Lemma forcelist_retried o : forcelist_status o = true -> retried o = true.
Proof. destruct o; cbn [retried transport_failure forcelist_status]; auto; discriminate. Qed.


(** A round whose four requests all answer a status of the forcelist. *)
Lemma round_status_exhausted cfg up ms t k f a le w :
  (forall i, (i <= 3)%nat -> forcelist_status (up (i + http_count w)%nat) = true) ->
  retry_loop cfg up ms t k (Datatypes.S f) a le w
  = (Raise (RetryError (max_retries_msg (failure_reason (up (3 + http_count w)%nat)))),
     after_requests (push EvPost w) 4).
Proof.
  intros H. rewrite retry_loop_S. unfold try_transport. rewrite attempt_body_eq, session_post_eq.
  rewrite urlopen_exhausts; change (http_count (push EvPost w)) with (http_count w).
  - pose proof (H 3%nat (le_n _)) as H3.
    destruct (up (3 + http_count w)%nat) as [st txt ra c|r|r]; [|discriminate H3|discriminate H3].
    reflexivity.
  - intros i Hi. apply forcelist_retried, H, Hi.
Qed.















(** *** The shape of a cache key *)

Lemma hex_digit_lower n : 0 <= n <= 15 -> is_lower_hex (MD5.hex_digit n) = true.
Proof.
  intros H.
  assert (A : forallb (fun i => is_lower_hex (MD5.hex_digit (Z.of_nat i))) (seq 0 16) = true) by reflexivity.
  rewrite forallb_forall in A.
  rewrite <- (Z2Nat.id n) by lia. apply A, in_seq. lia.
Qed.

Lemma hex_of_bytes_shape bs :
  Forall (fun b => 0 <= b <= 255) bs ->
  String.length (MD5.hex_of_bytes bs) = (2 * List.length bs)%nat
  /\ forallb is_lower_hex (list_ascii_of_string (MD5.hex_of_bytes bs)) = true.
Proof.
  induction 1 as [|b bs Hb _ [IH1 IH2]]; [split; reflexivity|].
  cbn [MD5.hex_of_bytes String.length list_ascii_of_string forallb List.length].
  rewrite IH1, IH2. split; [lia|].
  assert (A1 : 0 <= Z.shiftr b 4 <= 15).
  { rewrite Z.shiftr_div_pow2 by lia. change (2 ^ 4) with 16. split; [apply Z.div_pos; lia|].
    assert (b / 16 < 16) by (apply Z.div_lt_upper_bound; lia). lia. }
  assert (A2 : 0 <= Z.land b 15 <= 15).
  { pose proof (Z.land_ones b 4 ltac:(lia)) as L. change (Z.ones 4) with 15 in L.
    change (2 ^ 4) with 16 in L. rewrite L. pose proof (Z.mod_pos_bound b 16). lia. }
  rewrite (hex_digit_lower _ A1), (hex_digit_lower _ A2). reflexivity.
Qed.

Lemma le_bytes_range n x : Forall (fun b => 0 <= b <= 255) (MD5.le_bytes n x).
Proof.
  revert x. induction n as [|n IH]; intros x; constructor; [|apply IH].
  pose proof (Z.land_ones x 8 ltac:(lia)) as L. change (Z.ones 8) with 255 in L.
  change (2 ^ 8) with 256 in L. rewrite L. pose proof (Z.mod_pos_bound x 256). lia.
Qed.

Lemma le_bytes_length n x : List.length (MD5.le_bytes n x) = n.
Proof. revert x. induction n as [|n IH]; intros x; simpl; auto. Qed.

(** *** Case-insensitive settings *)

Lemma ascii_N_inj a b : N_of_ascii a = N_of_ascii b -> a = b.
Proof. intros H. rewrite <- (ascii_N_embedding a), <- (ascii_N_embedding b), H. reflexivity. Qed.

Lemma lower_char_letter c d :
  is_lower_letter d = true ->
  Config.lower_char c = d <-> c = d \/ c = upper_of d.
Proof.
  intros Hd. pose proof Hd as Hd0. unfold is_lower_letter in Hd. apply andb_true_iff in Hd. destruct Hd as [H1 H2].
  apply N.leb_le in H1. apply N.leb_le in H2.
  assert (Hu : N_of_ascii (upper_of d) = (N_of_ascii d - 32)%N).
  { unfold upper_of. apply N_ascii_embedding. lia. }
  split.
  - intros E. apply (f_equal N_of_ascii) in E.
    remember (N_of_ascii d) as nd eqn:Hnd.
    destruct c as [b0 b1 b2 b3 b4 b5 b6 b7];
    destruct b0, b1, b2, b3, b4, b5, b6, b7; vm_compute in E;
    first [ left; apply ascii_N_inj; rewrite <- ?Hnd, <- E; reflexivity
          | right; apply ascii_N_inj; rewrite Hu, <- ?Hnd, <- E; reflexivity
          | exfalso; lia ].
  - intros [E|E]; apply ascii_N_inj; subst c.
    + clear H1 H2 Hu. destruct d as [b0 b1 b2 b3 b4 b5 b6 b7];
      destruct b0, b1, b2, b3, b4, b5, b6, b7; vm_compute in Hd0 |- *;
      first [reflexivity | discriminate Hd0].
    + clear H1 H2 Hu. destruct d as [b0 b1 b2 b3 b4 b5 b6 b7];
      destruct b0, b1, b2, b3, b4, b5, b6, b7; vm_compute in Hd0 |- *;
      first [reflexivity | discriminate Hd0].
Qed.

Lemma lower_letters s t :
  forallb is_lower_letter (list_ascii_of_string t) = true ->
  Config.lower s = t <-> caseless_eq s t = true.
Proof.
  revert t. induction s as [|c s IH]; intros [|d t] Ht; cbn [Config.lower caseless_eq] in *;
  try (split; [discriminate|discriminate]); [split; reflexivity|].
  cbn [list_ascii_of_string forallb] in Ht. apply andb_true_iff in Ht. destruct Ht as [Hd Ht].
  rewrite andb_true_iff, orb_true_iff, !Ascii.eqb_eq, <- (lower_char_letter c d Hd), <- (IH t Ht).
  split; [intros E; injection E; tauto|intros [-> ->]; reflexivity].
Qed.

(** *** The batches of [generate_dynamic_quiz] *)

Lemma range_from_sizes n : forall fuel i,
  Z.of_nat fuel >= n - i ->
  fold_right Z.add 0 (map (fun s => Z.min 10 (n - s)) (Quiz.range_from fuel i n 10)) = Z.max 0 (n - i)
  /\ Forall (fun b => 1 <= b <= 10) (map (fun s => Z.min 10 (n - s)) (Quiz.range_from fuel i n 10))
  /\ Z.of_nat (List.length (Quiz.range_from fuel i n 10)) = (Z.max 0 (n - i) + 9) / 10.
Proof.
  intros fuel. induction fuel as [|f IH]; intros i Hf; cbn [Quiz.range_from].
  - cbn. replace (Z.max 0 (n - i)) with 0 by lia. repeat split; constructor.
  - destruct (Z.ltb_spec i n) as [Hi|Hi].
    + destruct (IH (i + 10) ltac:(lia)) as [S1 [S2 S3]].
      cbn [map fold_right List.length]. rewrite S1. split; [lia|]. split; [constructor; [lia|exact S2]|].
      rewrite Nat2Z.inj_succ, S3.
      destruct (Z.le_gt_cases (n - i) 10).
      * replace (Z.max 0 (n - (i + 10))) with 0 by lia. replace (Z.max 0 (n - i)) with (n - i) by lia.
        assert ((n - i + 9) / 10 = 1); [|change ((0 + 9) / 10) with 0; lia].
        symmetry. apply Z.div_unique with (n - i - 1); lia.
      * replace (Z.max 0 (n - (i + 10))) with (n - i - 10) by lia. replace (Z.max 0 (n - i)) with (n - i) by lia.
        replace (n - i + 9) with ((n - i - 10 + 9) + 1 * 10) by lia. rewrite Z.div_add by lia. lia.
    + cbn. replace (Z.max 0 (n - i)) with 0 by lia. repeat split; constructor.
Qed.

Lemma range_sizes n :
  fold_right Z.add 0 (map (fun s => Z.min Quiz.batch_size (n - s)) (Quiz.range 0 n Quiz.batch_size)) = Z.max 0 n
  /\ Forall (fun b => 1 <= b <= Quiz.batch_size) (map (fun s => Z.min Quiz.batch_size (n - s)) (Quiz.range 0 n Quiz.batch_size))
  /\ Z.of_nat (List.length (Quiz.range 0 n Quiz.batch_size)) = (Z.max 0 n + 9) / 10.
Proof.
  unfold Quiz.range, Quiz.batch_size. rewrite Z.sub_0_r.
  destruct (range_from_sizes n (Z.to_nat n) 0 ltac:(lia)) as [A [B C]].
  rewrite Z.sub_0_r in A, C. auto.
Qed.



(** *** Fences around a reply *)

Lemma no_char_cons c b s : no_char c (String b s) = negb (Ascii.eqb b c) && no_char c s.
Proof. reflexivity. Qed.

Lemma prefix_head c x b y : Ascii.eqb b c = false -> prefix (String c x) (String b y) = false.
Proof.
  intros H. apply Ascii.eqb_neq in H. cbn [prefix]. destruct (ascii_dec c b); [congruence|reflexivity].
Qed.

Lemma no_char_head c b s : no_char c (String b s) = true -> Ascii.eqb b c = false /\ no_char c s = true.
Proof. rewrite no_char_cons, andb_true_iff, negb_true_iff. tauto. Qed.

Lemma index_no_char c x s : no_char c s = true -> index 0 (String c x) s = None.
Proof.
  induction s as [|b s IH]; intros H; [reflexivity|].
  apply no_char_head in H. destruct H as [H1 H2].
  cbn [index]. rewrite (prefix_head c x b s H1), IH by exact H2. reflexivity.
Qed.

Lemma index_skip c x p s :
  no_char c p = true ->
  index 0 (String c x) (p ++ s) = option_map (fun i => String.length p + i)%nat (index 0 (String c x) s).
Proof.
  induction p as [|b p IH]; intros H.
  - cbn. destruct (index 0 (String c x) s); reflexivity.
  - apply no_char_head in H. destruct H as [H1 H2].
    cbn [append index String.length]. rewrite (prefix_head c x b (p ++ s) H1), IH by exact H2.
    destruct (index 0 (String c x) s); reflexivity.
Qed.

Lemma prefix_app_self sep r : prefix sep (sep ++ r) = true.
Proof.
  induction sep as [|c sep IH]; [destruct r; reflexivity|]. cbn [append prefix].
  destruct (ascii_dec c c); [exact IH|congruence].
Qed.

Lemma index_at c x r : index 0 (String c x) (String c x ++ r) = Some 0%nat.
Proof.
  pose proof (prefix_app_self (String c x) r) as P. cbn [append] in P |- *. cbn [index].
  rewrite P. reflexivity.
Qed.

Lemma substring_prefix p x : substring 0 (String.length p) (p ++ x) = p.
Proof. induction p as [|c p IH]; [destruct x; reflexivity|cbn; f_equal; exact IH]. Qed.

Lemma substring_all s m : (String.length s <= m)%nat -> substring 0 m s = s.
Proof.
  revert m. induction s as [|c s IH]; intros m H; [destruct m; reflexivity|].
  destruct m as [|m]; cbn in H; [lia|]. cbn. f_equal. apply IH. lia.
Qed.

Lemma substring_skip p n m x : substring (String.length p + n) m (p ++ x) = substring n m x.
Proof. induction p as [|c p IH]; [reflexivity|exact IH]. Qed.

Lemma length_app a b : String.length (a ++ b) = (String.length a + String.length b)%nat.
Proof. induction a as [|c a IH]; cbn; [reflexivity|rewrite IH; reflexivity]. Qed.

(** Splitting at the first separator. *)
Lemma split_first c x p r f :
  no_char c p = true ->
  Quiz.split_fuel (Datatypes.S f) (String c x) (p ++ String c x ++ r)
  = p :: Quiz.split_fuel f (String c x) r.
Proof.
  intros H. cbn [Quiz.split_fuel].
  rewrite (index_skip c x p _ H), index_at. cbn [option_map]. rewrite Nat.add_0_r.
  rewrite substring_prefix. f_equal. f_equal.
  rewrite substring_skip, <- (Nat.add_0_r (String.length (String c x))), substring_skip.
  apply substring_all. rewrite !length_app. lia.
Qed.

(** Splitting a string without the separator's first character. *)
Lemma split_none c x p f :
  no_char c p = true -> Quiz.split_fuel f (String c x) p = [p].
Proof. intros H. destruct f; [reflexivity|]. cbn [Quiz.split_fuel]. rewrite index_no_char by exact H. reflexivity. Qed.

Lemma prefix_no_head c y s : no_char c s = true -> prefix (String c y) s = false.
Proof.
  destruct s as [|b s]; [reflexivity|]. intros H. apply no_char_head in H. apply prefix_head, H.
Qed.

Lemma index_json_after_fence rest :
  no_char backtick rest = true ->
  index 0 Quiz.fence_json (Quiz.fence ++ rest) = if prefix "json" rest then Some 0%nat else None.
Proof.
  intros H. unfold backtick in H. unfold Quiz.fence_json, Quiz.fence. cbn [append index prefix].
  rewrite !(prefix_no_head "`"%char _ rest H), (index_no_char "`"%char "``json" rest H).
  simpl.
  destruct (prefix "json" rest); reflexivity.
Qed.

Lemma split_fuel_S f sep s :
  Quiz.split_fuel (Datatypes.S f) sep s
  = match String.index 0 sep s with
    | Some i => String.substring 0 i s
                :: Quiz.split_fuel f sep (String.substring (i + String.length sep) (String.length s) s)
    | None => [s]
    end.
Proof. reflexivity. Qed.

Lemma clean_plain s : no_char backtick s = true -> Quiz.clean_content s = s.
Proof.
  intros H. unfold backtick in H. unfold Quiz.clean_content, Quiz.str_contains, Quiz.fence_json, Quiz.fence.
  rewrite (index_no_char "`"%char "``json" s H), (index_no_char "`"%char "``" s H). reflexivity.
Qed.

Lemma clean_fenced p body rest :
  no_char backtick p = true -> no_char backtick body = true -> no_char backtick rest = true ->
  Quiz.clean_content (p ++ Quiz.fence_json ++ body ++ Quiz.fence ++ rest) = Quiz.str_strip body.
Proof.
  intros Hp Hb Hr. pose proof (index_json_after_fence rest Hr) as Hj.
  unfold backtick in Hp, Hb, Hr. unfold Quiz.clean_content, Quiz.str_contains, Quiz.str_split.
  unfold Quiz.fence_json, Quiz.fence in *.
  rewrite (index_skip "`"%char "``json" p _ Hp), index_at. cbn [option_map].
  rewrite (split_first "`"%char "``json" p (body ++ "```" ++ rest) _ Hp).
  cbn [nth].
  destruct (String.length (p ++ "```json" ++ body ++ "```" ++ rest)) as [|m] eqn:El.
  { rewrite !length_app in El. cbn in El. lia. }
  rewrite (split_fuel_S m "```json" (body ++ "```" ++ rest)).
  rewrite (index_skip "`"%char "``json" body _ Hb), Hj.
  destruct (prefix "json" rest); cbn [option_map nth].
  - rewrite Nat.add_0_r, substring_prefix, (split_none "`"%char "``" body _ Hb). reflexivity.
  - rewrite (split_first "`"%char "``" body rest _ Hb). reflexivity.
Qed.

(** The digest of any state: sixteen bytes written as 32 lower-case
    hexadecimal digits. *)
Lemma digest_shape st :
  String.length (MD5.hex_of_bytes (MD5.le_bytes 4 (MD5.ra st) ++ MD5.le_bytes 4 (MD5.rb st)
                                   ++ MD5.le_bytes 4 (MD5.rc st) ++ MD5.le_bytes 4 (MD5.rd st))) = 32%nat
  /\ forallb is_lower_hex (list_ascii_of_string
       (MD5.hex_of_bytes (MD5.le_bytes 4 (MD5.ra st) ++ MD5.le_bytes 4 (MD5.rb st)
                          ++ MD5.le_bytes 4 (MD5.rc st) ++ MD5.le_bytes 4 (MD5.rd st)))) = true.
Proof.
  destruct (hex_of_bytes_shape (MD5.le_bytes 4 (MD5.ra st) ++ MD5.le_bytes 4 (MD5.rb st)
                                ++ MD5.le_bytes 4 (MD5.rc st) ++ MD5.le_bytes 4 (MD5.rd st)))
    as [L H]; [apply Forall_app; split; [|apply Forall_app; split; [|apply Forall_app; split]]; apply le_bytes_range|].
  split; [|exact H]. rewrite L, !List.length_app, !le_bytes_length. reflexivity.
Qed.


End Facts.

(* ------------------------------------------------------------------ *)
(** ** Claims *)

(** C1: the cache key depends on the messages, model, temperature and
    max_tokens only, and a reordering of the items of any message dict
    leaves it unchanged; the order of the conversation turns does
    matter: swapping two turns changes the key. *)
Theorem cache_key_canonical :
  (forall ms1 ms2 model temperature max_tokens,
     messages_equiv ms1 ms2 ->
     _generate_cache_key ms1 model temperature max_tokens
     = _generate_cache_key ms2 model temperature max_tokens)
  /\ _generate_cache_key [msg_system; msg_user] "gpt-3.5-turbo" "0.2" 500
     <> _generate_cache_key [msg_user; msg_system] "gpt-3.5-turbo" "0.2" 500.
Proof.
  split.
  - intros ms1 ms2 model temperature max_tokens H.
    unfold _generate_cache_key, cache_string, cache_data. cbn [dumps map].
    assert (E : map dumps (map message_json ms1) = map dumps (map message_json ms2)).
    { induction H as [|d1 d2 l1 l2 [P ND] _ IH]; cbn [map]; auto.
      rewrite IH, (message_json_perm d1 d2 P ND). reflexivity. }
    rewrite E. reflexivity.
  - intro H. vm_compute in H. discriminate H.
Qed.

Lemma cache_key_canonical_witness :
  messages_equiv [msg_system; msg_user] [msg_system; msg_user_reordered]
  /\ _generate_cache_key [msg_system; msg_user] "gpt-3.5-turbo" "0.2" 500
     = _generate_cache_key [msg_system; msg_user_reordered] "gpt-3.5-turbo" "0.2" 500.
Proof.
  assert (Heq : messages_equiv [msg_system; msg_user] [msg_system; msg_user_reordered]).
  { repeat constructor; try apply perm_swap; simpl; intuition discriminate. }
  split; [exact Heq|].
  apply (proj1 cache_key_canonical). exact Heq.
Defined.

(** C2 (evaluation at the failing inputs): [get] returns a value whose
    [expires_at] has already passed on the clock [set] wrote it with.
    (a) UTC host: the entry expired 0.4 s ago, yet the stored text
    "...:00.500000" is still greater than the whole-second
    [CURRENT_TIMESTAMP] "...:00".  (b) Host at UTC+8: the entry expired an
    hour ago, yet its local-time text is greater than the UTC text of
    [CURRENT_TIMESTAMP]. *)
Theorem get_serves_expired_entry :
  (let cfg := cfg_tz 0 in
   let w := at_clock (snd (set cfg [msg_user] "gpt-3.5-turbo" "0.2" 500 "4" (world_at t0)))
                     (t0 + hour_us + 400000) in
   option_map expires_at (lookup_row (_generate_cache_key [msg_user] "gpt-3.5-turbo" "0.2" 500) (table w))
     = Some (adapt_datetime (t0 + hour_us))
   /\ t0 + hour_us < local_now cfg w
   /\ fst (get cfg [msg_user] "gpt-3.5-turbo" "0.2" 500 w) = Ok (Some "4"))
  /\
  (let cfg := cfg_tz (8 * hour_us) in
   let w := at_clock (snd (set cfg [msg_user] "gpt-3.5-turbo" "0.2" 500 "4" (world_at t0)))
                     (t0 + 2 * hour_us) in
   option_map expires_at (lookup_row (_generate_cache_key [msg_user] "gpt-3.5-turbo" "0.2" 500) (table w))
     = Some (adapt_datetime (t0 + 9 * hour_us))
   /\ t0 + 9 * hour_us < local_now cfg w
   /\ fst (get cfg [msg_user] "gpt-3.5-turbo" "0.2" 500 w) = Ok (Some "4")).
Proof. vm_compute. repeat split; reflexivity. Qed.

(** C3 (evaluation at the failing input): with an upstream that always
    answers 503, the session's urllib3 [Retry] spends its budget inside
    the first [session.post] (4 requests) and raises [RetryError], which
    the loop does not catch: one loop attempt, no loop back-off, and not
    the "API call failed after retries" error.  For contrast, an upstream
    that always fails to connect goes through the 3 loop attempts with
    sleeps of 0.5 s and 0.75 s and the last reason in the error. *)
Theorem retry_status_escapes_loop :
  (let r := call_ai_api (cfg_tz 0) (always (Resp 503 "Service Unavailable" false None))
                        [msg_user] None None (world_at t0) in
   fst r = Raise (RetryError (max_retries_msg (too_many_msg 503)))
   /\ trace (snd r) = [EvHttp 3; EvHttp 2; EvHttp 1; EvHttp 0; EvPost; EvDb])
  /\
  (let r := call_ai_api (cfg_tz 0) (always (ConnFail "connection reset"))
                        [msg_user] None None (world_at t0) in
   fst r = Raise (Exception ("API call failed after retries - " ++ max_retries_msg "connection reset"))
   /\ trace (snd r) = [EvHttp 11; EvHttp 10; EvHttp 9; EvHttp 8; EvPost; EvSleep 750000;
                       EvHttp 7; EvHttp 6; EvHttp 5; EvHttp 4; EvPost; EvSleep 500000;
                       EvHttp 3; EvHttp 2; EvHttp 1; EvHttp 0; EvPost; EvDb]).
Proof. vm_compute. repeat split; reflexivity. Qed.

(** C4 (counterexample): not every 5xx status is retried: an upstream
    answering 501 gets a single request. *)
Lemma status_501_not_retried :
  ~ (forall st, 500 <= st <= 599 ->
       (1 < http_count (snd (call_ai_api (cfg_tz 0) (always (Resp st "Not Implemented" false None))
                                         [msg_user] None None (world_at t0))))%nat).
Proof.
  intro H. specialize (H 501 ltac:(lia)). vm_compute in H. lia.
Qed.

(** C6 (evaluation at the failing input): on a host at UTC-5 with the
    default 60-minute TTL, [set] followed at once by [get] finds nothing:
    the local-time expiry text is already below the UTC
    [CURRENT_TIMESTAMP]. *)
Theorem set_then_get_misses_west_of_utc :
  let cfg := cfg_tz (-5 * hour_us) in
  fst (get cfg [msg_user] "gpt-3.5-turbo" "0.2" 500
         (snd (set cfg [msg_user] "gpt-3.5-turbo" "0.2" 500 "4" (world_at t0))))
  = Ok None.
Proof. vm_compute. reflexivity. Qed.

(** C8 (evaluation at the failing input): the cache holds an unexpired
    entry whose value is the empty string; [get] reports it, and
    [call_ai_api] still posts upstream. *)
Theorem empty_cached_value_goes_upstream :
  let cfg := cfg_tz 0 in
  let w := snd (set cfg [msg_user] "gpt-3.5-turbo" "0.2" 500 EmptyString (world_at t0)) in
  let r := call_ai_api cfg (always (Resp 200 "{...}" false (Some "4"))) [msg_user] None None w in
  fst (get cfg [msg_user] "gpt-3.5-turbo" "0.2" 500 w) = Ok (Some EmptyString)
  /\ fst r = Ok "4"
  /\ In (EvHttp 0) (trace (snd r)).
Proof. vm_compute. repeat split; auto. Qed.

(** C4 (amended): the statuses 429, 500, 502, 503 and 504 are retried by
    the session's [Retry] policy; on a cache miss, every other status
    from 400 up (501 and 505-599 included; 413 when it carries no
    [Retry-After] header) makes [call_ai_api] fail after one request,
    with an error carrying the status and the body. *)
Theorem status_classification :
  (forall st ra total, mem st status_forcelist = true -> is_retry st ra total = true)
  /\
  (forall cfg up ms temperature max_tokens w st body ra c,
     fst (get cfg ms (CURRENT_MODEL cfg)
                (fst (_optimize_parameters_for_speed cfg temperature max_tokens))
                (snd (_optimize_parameters_for_speed cfg temperature max_tokens)) w) = Ok None ->
     up (http_count w) = Resp st body ra c ->
     400 <= st -> mem st status_forcelist = false -> (st = 413 -> ra = false) ->
     fst (call_ai_api cfg up ms temperature max_tokens w)
       = Raise (Exception ("API call failed: " ++ repr_int st ++ " - " ++ body))
     /\ http_count (snd (call_ai_api cfg up ms temperature max_tokens w)) = S (http_count w)).
Proof.
  split.
  - intros st ra total H. unfold is_retry. rewrite H. reflexivity.
  - intros cfg up ms temperature max_tokens w st body ra c Hget Hup H400 Hm H413.
    assert (Hr : is_retry st ra 3 = false).
    { unfold is_retry. rewrite Hm. unfold status_forcelist in Hm.
      destruct (Z.eqb_spec st 413) as [->|N413]; [rewrite H413; reflexivity|].
      destruct (Z.eqb_spec st 429) as [->|N429]; [vm_compute in Hm; discriminate Hm|].
      destruct (Z.eqb_spec st 503) as [->|N503]; [vm_compute in Hm; discriminate Hm|].
      unfold mem. simpl.
      rewrite (proj2 (Z.eqb_neq _ _) N413), (proj2 (Z.eqb_neq _ _) N429), (proj2 (Z.eqb_neq _ _) N503).
      destruct ra; reflexivity. }
    assert (H200 : (st =? 200) = false) by (apply Z.eqb_neq; lia).
    unfold status_forcelist in Hm.
    revert Hget. unfold call_ai_api.
    destruct (_optimize_parameters_for_speed cfg temperature max_tokens) as [t' k']. simpl. intros Hget.
    cbv [bind].
    destruct (get cfg ms (CURRENT_MODEL cfg) t' k' w) as [r w1] eqn:Eg. simpl in Hget. subst r.
    assert (Hw1 : http_count w1 = http_count w).
    { destruct (Steps.get_world cfg ms (CURRENT_MODEL cfg) t' k' w) as [E|E];
      rewrite Eg in E; simpl in E; subst w1; reflexivity. }
    rewrite <- Hw1 in Hup |- *.
    cbn [retry_loop]. unfold try_transport, attempt_body. cbv [bind].
    rewrite (Steps.session_post_answer up w1 st body ra c Hup Hr).
    cbn [status_code resp_content resp_text]. rewrite H200, Hm. split; reflexivity.
Qed.

Lemma status_classification_witness :
  fst (get (cfg_tz 0) [msg_user] "gpt-3.5-turbo" "0.2" 500 (world_at t0)) = Ok None
  /\ fst (call_ai_api (cfg_tz 0) (always (Resp 404 "Not Found" false None)) [msg_user] None None (world_at t0))
     = Raise (Exception ("API call failed: " ++ repr_int 404 ++ " - " ++ "Not Found"))
  /\ http_count (snd (call_ai_api (cfg_tz 0) (always (Resp 404 "Not Found" false None)) [msg_user] None None (world_at t0)))
     = S (http_count (world_at t0)).
Proof.
  assert (Hg : fst (get (cfg_tz 0) [msg_user] "gpt-3.5-turbo" "0.2" 500 (world_at t0)) = Ok None)
    by (vm_compute; reflexivity).
  split; [exact Hg|].
  apply (proj2 status_classification (cfg_tz 0) (always (Resp 404 "Not Found" false None))
           [msg_user] None None (world_at t0) 404 "Not Found" false None).
  - exact Hg.
  - reflexivity.
  - lia.
  - reflexivity.
  - discriminate.
Defined.

(** C5 (counterexample): a storage error during [get] is not reported
    as a miss: [get] raises [sqlite3.OperationalError]. *)
Lemma get_storage_error_raises :
  fst (get (cfg_tz 0) [msg_user] "gpt-3.5-turbo" "0.2" 500 (with_db_failures (world_at t0) true false))
  = Raise OperationalError.
Proof. vm_compute. reflexivity. Qed.

(** C5 (amended): with caching enabled, storage errors propagate.  A
    failing read makes [get] raise [OperationalError], and [call_ai_api]
    with it, before any upstream request; a failing write makes [set]
    raise it, and [call_ai_api] with it even after the upstream answered
    200. *)
Theorem storage_errors_propagate :
  (forall cfg ms model t k w,
     ENABLE_RESPONSE_CACHING cfg = true -> db_read_fails w = true ->
     fst (get cfg ms model t k w) = Raise OperationalError)
  /\
  (forall cfg ms model t k r w,
     ENABLE_RESPONSE_CACHING cfg = true -> db_write_fails w = true ->
     fst (set cfg ms model t k r w) = Raise OperationalError)
  /\
  (forall cfg up ms temperature max_tokens w,
     ENABLE_RESPONSE_CACHING cfg = true -> db_read_fails w = true ->
     fst (call_ai_api cfg up ms temperature max_tokens w) = Raise OperationalError
     /\ http_count (snd (call_ai_api cfg up ms temperature max_tokens w)) = http_count w)
  /\
  (forall cfg up ms temperature max_tokens w body ra c,
     ENABLE_RESPONSE_CACHING cfg = true -> db_write_fails w = true ->
     fst (get cfg ms (CURRENT_MODEL cfg)
                (fst (_optimize_parameters_for_speed cfg temperature max_tokens))
                (snd (_optimize_parameters_for_speed cfg temperature max_tokens)) w) = Ok None ->
     up (http_count w) = Resp 200 body ra (Some c) ->
     fst (call_ai_api cfg up ms temperature max_tokens w) = Raise OperationalError).
Proof.
  split; [|split; [|split]].
  - intros cfg ms model t k w He Hr. rewrite Steps.get_read_failure; auto.
  - intros cfg ms model t k r w He Hw. rewrite Steps.set_write_failure; auto.
  - intros cfg up ms temperature max_tokens w He Hr. unfold call_ai_api.
    destruct (_optimize_parameters_for_speed cfg temperature max_tokens) as [t' k'].
    cbv [bind]. rewrite Steps.get_read_failure; auto.
  - intros cfg up ms temperature max_tokens w body ra c He Hw Hget Hup.
    revert Hget. unfold call_ai_api.
    destruct (_optimize_parameters_for_speed cfg temperature max_tokens) as [t' k']. simpl. intros Hget.
    cbv [bind].
    destruct (get cfg ms (CURRENT_MODEL cfg) t' k' w) as [r w1] eqn:Eg. simpl in Hget. subst r.
    assert (Hw1 : http_count w1 = http_count w /\ db_write_fails w1 = db_write_fails w).
    { destruct (Steps.get_world cfg ms (CURRENT_MODEL cfg) t' k' w) as [E|E];
      rewrite Eg in E; simpl in E; subst w1; split; reflexivity. }
    destruct Hw1 as [Hc1 Hw1]. rewrite <- Hc1 in Hup.
    cbn [retry_loop]. unfold try_transport, attempt_body. cbv [bind].
    rewrite (Steps.session_post_answer up w1 200 body ra (Some c) Hup (Steps.is_retry_200 ra 3)).
    cbn [status_code resp_content resp_text Z.eqb Pos.eqb].
    rewrite Steps.set_write_failure; auto. simpl. congruence.
Qed.

Lemma storage_errors_propagate_witness :
  fst (set (cfg_tz 0) [msg_user] "gpt-3.5-turbo" "0.2" 500 "4" (with_db_failures (world_at t0) false true))
  = Raise OperationalError
  /\ fst (call_ai_api (cfg_tz 0) (always (Resp 200 "{...}" false (Some "4"))) [msg_user] None None
            (with_db_failures (world_at t0) false true))
     = Raise OperationalError.
Proof.
  split.
  - apply (proj1 (proj2 storage_errors_propagate)); reflexivity.
  - apply (proj2 (proj2 (proj2 storage_errors_propagate))
             (cfg_tz 0) (always (Resp 200 "{...}" false (Some "4"))) [msg_user] None None
             (with_db_failures (world_at t0) false true) "{...}" false "4");
    [reflexivity | reflexivity | vm_compute; reflexivity | reflexivity].
Defined.

(** C7 (evaluation at the failing inputs, and idempotence): (a) on a UTC
    host an entry that expired 0.4 s ago survives [cleanup_expired] and
    [get] still returns it; (b) on a host at UTC-5 [cleanup_expired]
    deletes an entry that [set] has just written with an expiry an hour
    ahead of the local clock; (c) a second run that finds no newly
    expired entry leaves the table as it is. *)
Theorem cleanup_expired_behaviour :
  (let cfg := cfg_tz 0 in
   let w := at_clock (snd (set cfg [msg_user] "gpt-3.5-turbo" "0.2" 500 "4" (world_at t0)))
                     (t0 + hour_us + 400000) in
   t0 + hour_us < local_now cfg w
   /\ fst (get cfg [msg_user] "gpt-3.5-turbo" "0.2" 500 (snd (cleanup_expired w))) = Ok (Some "4"))
  /\
  (let cfg := cfg_tz (-5 * hour_us) in
   let w := snd (set cfg [msg_user] "gpt-3.5-turbo" "0.2" 500 "4" (world_at t0)) in
   option_map expires_at (lookup_row (_generate_cache_key [msg_user] "gpt-3.5-turbo" "0.2" 500) (table w))
     = Some (adapt_datetime (t0 - 4 * hour_us))
   /\ local_now cfg w < t0 - 4 * hour_us
   /\ table (snd (cleanup_expired w)) = [])
  /\
  (forall w t',
     db_write_fails w = false ->
     (forall kr, In kr (table (snd (cleanup_expired w))) ->
                 text_gt (expires_at (snd kr)) (CURRENT_TIMESTAMP t') = true) ->
     table (snd (cleanup_expired (at_clock (snd (cleanup_expired w)) t')))
     = table (snd (cleanup_expired w))).
Proof.
  split; [|split].
  - vm_compute. split; reflexivity.
  - vm_compute. repeat split; reflexivity.
  - intros w t' Hw H. rewrite (Steps.cleanup_world w Hw) in H |- *.
    rewrite Steps.cleanup_world by exact Hw. simpl in H |- *.
    unfold sweep at 1. apply Steps.filter_all_true.
    intros kr Hin. unfold text_le. rewrite (H kr Hin). reflexivity.
Qed.

Lemma cleanup_expired_behaviour_witness :
  let w := snd (set (cfg_tz 0) [msg_user] "gpt-3.5-turbo" "0.2" 500 "4" (world_at t0)) in
  db_write_fails w = false
  /\ (forall kr, In kr (table (snd (cleanup_expired w))) ->
                 text_gt (expires_at (snd kr)) (CURRENT_TIMESTAMP (t0 + 1000000)) = true)
  /\ table (snd (cleanup_expired (at_clock (snd (cleanup_expired w)) (t0 + 1000000))))
     = table (snd (cleanup_expired w)).
Proof.
  intros w.
  assert (Hw : db_write_fails w = false) by reflexivity.
  assert (Hk : forall kr, In kr (table (snd (cleanup_expired w))) ->
                 text_gt (expires_at (snd kr)) (CURRENT_TIMESTAMP (t0 + 1000000)) = true).
  { intros kr Hin. vm_compute in Hin. destruct Hin as [<-|[]]. vm_compute. reflexivity. }
  split; [exact Hw | split; [exact Hk|]].
  exact (proj2 (proj2 cleanup_expired_behaviour) w (t0 + 1000000) Hw Hk).
Defined.

(** C9: with caching disabled, [get] reports absent and [set] does
    nothing, neither touching the world; every [call_ai_api] posts
    upstream, and none of the events it adds is a storage access. *)
Theorem caching_disabled_bypasses_store :
  forall cfg, ENABLE_RESPONSE_CACHING cfg = false ->
  (forall ms model t k w, get cfg ms model t k w = (Ok None, w))
  /\ (forall ms model t k r w, set cfg ms model t k r w = (Ok tt, w))
  /\ (forall up ms temperature max_tokens w,
        exists l, trace (snd (call_ai_api cfg up ms temperature max_tokens w))
                  = (l ++ EvHttp (http_count w) :: EvPost :: trace w)%list
                  /\ Forall (fun e => e <> EvDb) l).
Proof.
  intros cfg He. split; [|split].
  - intros. apply Steps.get_disabled. exact He.
  - intros. rewrite Steps.set_disabled; auto.
  - intros up ms temperature max_tokens w. unfold call_ai_api.
    destruct (_optimize_parameters_for_speed cfg temperature max_tokens) as [t' k'].
    cbv [bind]. rewrite Steps.get_disabled by exact He. cbv beta iota.
    apply (Traces.retry_loop_prefix (fun e => e <> EvDb)); try discriminate.
    intros. rewrite Steps.set_disabled by exact He. apply Traces.ret_emits.
Qed.

Lemma caching_disabled_bypasses_store_witness :
  ENABLE_RESPONSE_CACHING cfg_no_cache = false
  /\ get cfg_no_cache [msg_user] "gpt-3.5-turbo" "0.2" 500 (world_at t0) = (Ok None, world_at t0).
Proof.
  split; [reflexivity|].
  apply (proj1 (caching_disabled_bypasses_store cfg_no_cache eq_refl)).
Defined.

(** C10: when the cache reports a hit whose value is the empty string,
    [call_ai_api] goes on as on a miss: after the lookup it posts and
    sends a request upstream. *)
Theorem empty_cached_value_is_a_miss :
  forall cfg up ms temperature max_tokens w,
  fst (get cfg ms (CURRENT_MODEL cfg)
             (fst (_optimize_parameters_for_speed cfg temperature max_tokens))
             (snd (_optimize_parameters_for_speed cfg temperature max_tokens)) w) = Ok (Some EmptyString) ->
  exists l, trace (snd (call_ai_api cfg up ms temperature max_tokens w))
            = (l ++ EvHttp (http_count w) :: EvPost :: EvDb :: trace w)%list.
Proof.
  intros cfg up ms temperature max_tokens w. unfold call_ai_api.
  destruct (_optimize_parameters_for_speed cfg temperature max_tokens) as [t' k']. simpl. intros Hget.
  cbv [bind].
  pose proof (Steps.get_hit_world cfg ms (CURRENT_MODEL cfg) t' k' w EmptyString Hget) as Hw.
  destruct (get cfg ms (CURRENT_MODEL cfg) t' k' w) as [r w1] eqn:Eg. simpl in Hget, Hw. subst r w1.
  cbv beta iota. unfold truthy. simpl String.eqb. cbv beta iota.
  destruct (Traces.retry_loop_prefix (fun _ => True) I (fun _ => I) (fun _ => I) cfg up
              (fun ms model t k r => Steps.set_emits_all cfg ms model t k r) ms t' k' 2 0 EmptyString
              (push EvDb w)) as [l [E _]].
  exists l. exact E.
Qed.

Lemma empty_cached_value_is_a_miss_witness :
  let w := snd (set (cfg_tz 0) [msg_user] "gpt-3.5-turbo" "0.2" 500 EmptyString (world_at t0)) in
  fst (get (cfg_tz 0) [msg_user] "gpt-3.5-turbo" "0.2" 500 w) = Ok (Some EmptyString)
  /\ exists l, trace (snd (call_ai_api (cfg_tz 0) (always (Resp 200 "{...}" false (Some "4"))) [msg_user] None None w))
               = (l ++ EvHttp (http_count w) :: EvPost :: EvDb :: trace w)%list.
Proof.
  intros w.
  assert (Hg : fst (get (cfg_tz 0) [msg_user] "gpt-3.5-turbo" "0.2" 500 w) = Ok (Some EmptyString))
    by (vm_compute; reflexivity).
  split; [exact Hg|].
  apply (empty_cached_value_is_a_miss (cfg_tz 0) (always (Resp 200 "{...}" false (Some "4")))
           [msg_user] None None w).
  exact Hg.
Defined.

(* ------------------------------------------------------------------ *)
(** ** Further properties of the code *)

(** X1: every cache key is a string of 32 lower-case hexadecimal digits,
    whatever the messages and parameters. *)
Theorem cache_key_shape :
  forall ms model temperature max_tokens,
  String.length (_generate_cache_key ms model temperature max_tokens) = 32%nat
  /\ forallb is_lower_hex (list_ascii_of_string (_generate_cache_key ms model temperature max_tokens)) = true.
Proof.
  intros ms model temperature max_tokens. unfold _generate_cache_key, MD5.md5_hexdigest.
  apply Facts.digest_shape.
Qed.

(** X2: with caching on and a working store, [set] leaves exactly one
    row under the request's key, holding the new response; the rows of
    other keys are untouched, and keys stay unique. *)
Theorem set_insert_or_replace :
  forall cfg ms model t k v w,
  ENABLE_RESPONSE_CACHING cfg = true -> db_write_fails w = false ->
  (exists r, lookup_row (_generate_cache_key ms model t k) (table (snd (set cfg ms model t k v w))) = Some r
             /\ response r = v)
  /\ (forall key', key' <> _generate_cache_key ms model t k ->
        lookup_row key' (table (snd (set cfg ms model t k v w))) = lookup_row key' (table w))
  /\ (NoDup (map fst (table w)) -> NoDup (map fst (table (snd (set cfg ms model t k v w))))).
Proof.
  intros cfg ms model t k v w He Hw. rewrite (Facts.set_world cfg ms model t k v w He Hw). cbn [snd table].
  split; [eexists; split; [apply Facts.lookup_insert_same|reflexivity]|].
  split; [intros key' Hne; apply Facts.lookup_insert_other, Hne|apply Facts.insert_nodup].
Qed.

Lemma set_insert_or_replace_witness :
  ENABLE_RESPONSE_CACHING (cfg_tz 0) = true /\ db_write_fails (world_at t0) = false
  /\ exists r, lookup_row (_generate_cache_key [msg_user] "gpt-3.5-turbo" "0.2" 500)
                 (table (snd (set (cfg_tz 0) [msg_user] "gpt-3.5-turbo" "0.2" 500 "4" (world_at t0)))) = Some r
               /\ response r = "4".
Proof.
  split; [reflexivity|]. split; [reflexivity|].
  exact (proj1 (set_insert_or_replace (cfg_tz 0) [msg_user] "gpt-3.5-turbo" "0.2" 500 "4" (world_at t0)
                  ltac:(reflexivity) ltac:(reflexivity))).
Defined.

(** X3: after [set] of [v], a [get] with the same parameters at any later
    clock returns [v] exactly while the current UTC second is below the
    local time of the [set] plus the cache duration, and [None] from then on. *)
Theorem set_then_get_window :
  forall cfg ms model t k v w tnow,
  ENABLE_RESPONSE_CACHING cfg = true -> db_write_fails w = false -> db_read_fails w = false ->
  fst (get cfg ms model t k (at_clock (snd (set cfg ms model t k v w)) tnow))
  = Ok (if 1000000 * (tnow / 1000000) <? local_now cfg w + CACHE_DURATION_MINUTES cfg * 60 * 1000000
        then Some v else None).
Proof.
  intros cfg ms model t k v w tnow He Hw Hr.
  rewrite (Facts.set_world cfg ms model t k v w He Hw), Facts.get_result, He.
  cbn [at_clock snd db_read_fails table clock_us]. rewrite Hr, Facts.select_insert.
  cbn [expires_at response]. rewrite Facts.text_gt_adapt. reflexivity.
Qed.

Lemma set_then_get_window_witness :
  ENABLE_RESPONSE_CACHING (cfg_tz 0) = true /\ db_write_fails (world_at t0) = false
  /\ db_read_fails (world_at t0) = false
  /\ fst (get (cfg_tz 0) [msg_user] "gpt-3.5-turbo" "0.2" 500
            (at_clock (snd (set (cfg_tz 0) [msg_user] "gpt-3.5-turbo" "0.2" 500 "4" (world_at t0))) (t0 + 1000000)))
     = Ok (if 1000000 * ((t0 + 1000000) / 1000000) <? local_now (cfg_tz 0) (world_at t0)
                                                   + CACHE_DURATION_MINUTES (cfg_tz 0) * 60 * 1000000
           then Some "4" else None).
Proof.
  split; [reflexivity|]. split; [reflexivity|]. split; [reflexivity|].
  apply set_then_get_window; reflexivity.
Defined.

(** X4: [cleanup_cache] never changes what [get] answers at the same
    instant, whether its DELETE succeeds or fails. *)
Theorem cleanup_cache_invisible_to_get :
  forall cfg ms model t k w,
  fst (get cfg ms model t k (snd (cleanup_cache w))) = fst (get cfg ms model t k w).
Proof.
  intros cfg ms model t k w. unfold cleanup_cache. rewrite !Facts.get_result.
  destruct (db_write_fails w) eqn:Hw.
  - unfold cleanup_expired. cbv [bind db_access emit modify read_world ret raise].
    destruct w as [tb rf wf ck n tr]. cbn [db_write_fails] in Hw. subst wf. reflexivity.
  - rewrite (Steps.cleanup_world w Hw). cbn [db_read_fails table clock_us].
    rewrite Facts.sweep_select. reflexivity.
Qed.

(** X5: on the OpenAI provider, [call_ai_api] with any [max_tokens] of at
    least 500 behaves exactly as with 500, and so does the default when
    [DEFAULT_MAX_TOKENS] is at least 500. *)
Theorem openai_max_tokens_cap :
  forall cfg up ms temperature,
  API_PROVIDER cfg = "openai" ->
  (forall k, 500 <= k -> call_ai_api cfg up ms temperature (Some k) = call_ai_api cfg up ms temperature (Some 500))
  /\ (500 <= DEFAULT_MAX_TOKENS cfg ->
      call_ai_api cfg up ms temperature None = call_ai_api cfg up ms temperature (Some 500)).
Proof.
  intros cfg up ms temperature Hp.
  assert (O : forall mt, 500 <= match mt with Some k => k | None => Z.min (DEFAULT_MAX_TOKENS cfg) 600 end ->
              _optimize_parameters_for_speed cfg temperature mt = _optimize_parameters_for_speed cfg temperature (Some 500)).
  { intros mt H. unfold _optimize_parameters_for_speed. rewrite Hp, String.eqb_refl.
    f_equal. destruct mt; simpl in *; lia. }
  split.
  - intros k Hk. unfold call_ai_api. rewrite (O (Some k) Hk). reflexivity.
  - intros Hd. unfold call_ai_api. rewrite (O None ltac:(lia)). reflexivity.
Qed.

Lemma openai_max_tokens_cap_witness :
  API_PROVIDER (cfg_tz 0) = "openai"
  /\ call_ai_api (cfg_tz 0) (always (Resp 200 "{...}" false (Some "4"))) [msg_user] None (Some 800)
     = call_ai_api (cfg_tz 0) (always (Resp 200 "{...}" false (Some "4"))) [msg_user] None (Some 500).
Proof.
  split; [reflexivity|].
  apply (proj1 (openai_max_tokens_cap (cfg_tz 0) (always (Resp 200 "{...}" false (Some "4"))) [msg_user] None
                  ltac:(reflexivity))).
  lia.
Defined.








(** X10: the batches of [generate_dynamic_quiz] split [n] questions into
    ceil(n/10) batches of 1 to 10 questions whose sizes add up to [n];
    for [n <= 0] there is no batch. *)
Theorem quiz_batch_sizes :
  forall n,
  fold_right Z.add 0 (map (fun s => Z.min Quiz.batch_size (n - s)) (Quiz.range 0 n Quiz.batch_size)) = Z.max 0 n
  /\ Forall (fun b => 1 <= b <= Quiz.batch_size)
       (map (fun s => Z.min Quiz.batch_size (n - s)) (Quiz.range 0 n Quiz.batch_size))
  /\ Z.of_nat (List.length (Quiz.range 0 n Quiz.batch_size)) = (Z.max 0 n + 9) / 10.
Proof. intros n. apply Facts.range_sizes. Qed.


(** X12: asked for no question ([n <= 0]), [generate_dynamic_quiz]
    returns the empty list without calling the API. *)
Theorem generate_no_questions :
  forall cfg up json_loads randint title content n w,
  n <= 0 ->
  Quiz.generate_dynamic_quiz cfg up json_loads randint title content (Some n) w = (Ok [], w).
Proof.
  intros cfg up json_loads randint title content n w Hn.
  unfold Quiz.generate_dynamic_quiz, Quiz.range. rewrite Z.sub_0_r.
  replace (Z.to_nat n) with 0%nat by lia. reflexivity.
Qed.

Lemma generate_no_questions_witness :
  0 <= 0 /\
  Quiz.generate_dynamic_quiz (cfg_tz 0) (always (Resp 200 "{...}" false (Some "[]"))) (fun _ => None) (fun a _ => a)
    "Title" "Content" (Some 0) (world_at t0) = (Ok [], world_at t0).
Proof.
  split; [lia|]. apply generate_no_questions. lia.
Defined.

(** X13: when the API call of the first batch raises, whatever the
    error, [generate_dynamic_quiz] swallows it and returns
    [MOCK_QUIZZES], with no further call. *)
Theorem generate_first_batch_error :
  forall cfg up json_loads randint title content n w e,
  0 < n ->
  fst (call_deepseek cfg up (Quiz.batch_messages title content (Z.min Quiz.batch_size n)) (Some "0.8") (Some 800) w)
    = Raise e ->
  Quiz.generate_dynamic_quiz cfg up json_loads randint title content (Some n) w
  = (Ok Quiz.MOCK_QUIZZES,
     snd (call_deepseek cfg up (Quiz.batch_messages title content (Z.min Quiz.batch_size n)) (Some "0.8") (Some 800) w)).
Proof.
  intros cfg up json_loads randint title content n w e Hn Hc.
  unfold Quiz.generate_dynamic_quiz, Quiz.range. rewrite Z.sub_0_r.
  destruct (Z.to_nat n) as [|f] eqn:Ef; [lia|].
  cbn [Quiz.range_from]. destruct (Z.ltb_spec 0 n); [|lia].
  cbn [Quiz.quiz_loop]. unfold bind, Quiz.quiz_batch. rewrite Z.sub_0_r.
  destruct (call_deepseek cfg up (Quiz.batch_messages title content (Z.min Quiz.batch_size n)) (Some "0.8") (Some 800) w)
    as [[c|e'] w']; cbn [fst] in Hc; [discriminate|reflexivity].
Qed.

Lemma generate_first_batch_error_witness :
  0 < 3
  /\ fst (call_deepseek (cfg_tz 0) (always (Resp 200 "{...}" false (Some "[]")))
            (Quiz.batch_messages "Title" "Content" (Z.min Quiz.batch_size 3)) (Some "0.8") (Some 800)
            (with_db_failures (world_at t0) true false)) = Raise OperationalError
  /\ Quiz.generate_dynamic_quiz (cfg_tz 0) (always (Resp 200 "{...}" false (Some "[]"))) (fun _ => None) (fun a _ => a)
       "Title" "Content" (Some 3) (with_db_failures (world_at t0) true false)
     = (Ok Quiz.MOCK_QUIZZES,
        snd (call_deepseek (cfg_tz 0) (always (Resp 200 "{...}" false (Some "[]")))
               (Quiz.batch_messages "Title" "Content" (Z.min Quiz.batch_size 3)) (Some "0.8") (Some 800)
               (with_db_failures (world_at t0) true false))).
Proof.
  assert (Hc : fst (call_deepseek (cfg_tz 0) (always (Resp 200 "{...}" false (Some "[]")))
                      (Quiz.batch_messages "Title" "Content" (Z.min Quiz.batch_size 3)) (Some "0.8") (Some 800)
                      (with_db_failures (world_at t0) true false)) = Raise OperationalError)
    by (vm_compute; reflexivity).
  split; [lia|]. split; [exact Hc|].
  apply (generate_first_batch_error (cfg_tz 0) (always (Resp 200 "{...}" false (Some "[]"))) (fun _ => None)
           (fun a _ => a) "Title" "Content" 3 (with_db_failures (world_at t0) true false) OperationalError).
  - lia.
  - exact Hc.
Defined.

(** X14: the clean-up of a reply unwraps a json fence: with no backtick
    in [p], [body] or [rest], the text [p ++ "```json" ++ body ++ "```"
    ++ rest] becomes [body] stripped of white space; a reply without any
    backtick is passed on unchanged, not stripped. *)
Theorem clean_content_fences :
  forall p body rest,
  no_char backtick p = true -> no_char backtick body = true -> no_char backtick rest = true ->
  Quiz.clean_content (p ++ Quiz.fence_json ++ body ++ Quiz.fence ++ rest) = Quiz.str_strip body
  /\ Quiz.clean_content p = p.
Proof.
  intros p body rest Hp Hb Hr. split; [apply Facts.clean_fenced; assumption|apply Facts.clean_plain, Hp].
Qed.

Lemma clean_content_fences_witness :
  no_char backtick "Here you go: " = true /\ no_char backtick " [1, 2] " = true /\ no_char backtick " Done." = true
  /\ Quiz.clean_content ("Here you go: " ++ Quiz.fence_json ++ " [1, 2] " ++ Quiz.fence ++ " Done.")
     = Quiz.str_strip " [1, 2] "
  /\ Quiz.clean_content "Here you go: " = "Here you go: ".
Proof.
  split; [reflexivity|]. split; [reflexivity|]. split; [reflexivity|].
  apply clean_content_fences; reflexivity.
Defined.

(** X15: caching is on exactly when [ENABLE_RESPONSE_CACHING] is unset or
    spells "true" in any mix of upper and lower case. *)
Theorem caching_flag_values :
  forall env,
  Config.ENABLE_RESPONSE_CACHING env = true
  <-> match Config.getenv env "ENABLE_RESPONSE_CACHING" with
      | None => True
      | Some v => caseless_eq v "true" = true
      end.
Proof.
  intros env. unfold Config.ENABLE_RESPONSE_CACHING, Config.getenv_or.
  destruct (Config.getenv env "ENABLE_RESPONSE_CACHING") as [v|]; [|split; reflexivity].
  rewrite String.eqb_eq. apply Facts.lower_letters. reflexivity.
Qed.

(** X16: the provider is OpenAI (and [CURRENT_API_KEY], [CURRENT_API_URL]
    and [CURRENT_MODEL] are OpenAI's) exactly when [API_PROVIDER] is
    unset or spells "openai" in any mix of upper and lower case; any
    other value selects DeepSeek. *)
Theorem provider_is_openai :
  forall env,
  String.eqb (Config.API_PROVIDER env) "openai" = true
  <-> match Config.getenv env "API_PROVIDER" with
      | None => True
      | Some v => caseless_eq v "openai" = true
      end.
Proof.
  intros env. unfold Config.API_PROVIDER, Config.getenv_or.
  destruct (Config.getenv env "API_PROVIDER") as [v|]; [|split; reflexivity].
  rewrite String.eqb_eq. apply Facts.lower_letters. reflexivity.
Qed.

(** X17: constructing [Config] exits with status 1 exactly when the
    current provider's API key is unset or empty, and succeeds
    otherwise. *)
Theorem validate_requires_current_key :
  forall env,
  Config._validate_required_env_vars env
  = if String.eqb (Config.CURRENT_API_KEY env) EmptyString then Config.SystemExit 1 else Config.Initialised.
Proof.
  intros env. unfold Config._validate_required_env_vars, Config.CURRENT_API_KEY,
    Config.OPENAI_API_KEY, Config.DEEPSEEK_API_KEY, Config.getenv_or.
  destruct (String.eqb (Config.API_PROVIDER env) "openai");
  [destruct (Config.getenv env "OPENAI_API_KEY")|destruct (Config.getenv env "DEEPSEEK_API_KEY")]; reflexivity.
Qed.
